(** * quepid-es-proxy: request metrics (quepid_es_proxy/metrics.py)

    A shallow embedding of the metrics module: the scoped timer
    [Benchmark], the route matcher and middleware [RequestMetricsHandler],
    the Elasticsearch-backed [ElasticSearchMetricsManager] and the wiring
    of [add_metrics_app], followed by the properties of the specification.

    Conventions of the embedding.
    - Python floats ([time()], [wall_ms]) are rationals [Q]; rounding is
      not modelled.
    - Python values exchanged with Elasticsearch (dicts, lists, strings,
      numbers, [None]) are [Json] values; a dict is an association list.
    - Effects are explicit: a computation reads and updates an environment
      [Env] (clocks, the manager object, the calls the Elasticsearch client
      received, the tasks scheduled on the event loop), may raise, and
      emits the records it hands to the completion callback.
    - A request path is the list of its segments: [/a/b] is [["a"; "b"]],
      [/metrics/] is [["metrics"; ""]]. *)

From Stdlib Require Import String Ascii List Bool QArith Lqa Lia.
Import ListNotations.
Local Open Scope string_scope.
Local Open Scope list_scope.

(* Rational arithmetic stays folded when a run is simplified. *)
#[local] Arguments Qmult _ _ : simpl never.
#[local] Arguments Qminus _ _ : simpl never.
#[local] Arguments Qplus _ _ : simpl never.
#[local] Arguments Qle _ _ : simpl never.

(** ** Python values and exceptions *)

(* Json nests lists of itself; no proof below inducts on it. *)
Unset Elimination Schemes.
Inductive Json : Type :=
| JNull : Json
| JBool : bool -> Json
| JNum : Q -> Json
| JStr : string -> Json
| JArr : list Json -> Json
| JObj : list (string * Json) -> Json.
Set Elimination Schemes.

Inductive Exn : Type :=
| AttributeError : string -> Exn
| TypeError : string -> Exn
| UnboundLocalError : string -> Exn
| RuntimeError : string -> Exn
| Fault : string -> Exn.

Definition Result (A : Type) : Type := (Exn + A)%type.

Definition is_none (v : Json) : bool :=
  match v with JNull => true | _ => false end.

Fixpoint assoc (k : string) (fs : list (string * Json)) : option Json :=
  match fs with
  | [] => None
  | (k', v) :: fs' => if String.eqb k k' then Some v else assoc k fs'
  end.

(** [d.get(k)]: the value under [k], [None] when the key is missing; an
    object that is not a dict has no [get]. *)
Definition py_get (v : Json) (k : string) : Result Json :=
  match v with
  | JObj fs => inr (match assoc k fs with Some x => x | None => JNull end)
  | _ => inl (AttributeError "get")
  end.

Fixpoint chars (s : string) : list Json :=
  match s with
  | EmptyString => []
  | String c s' => JStr (String c EmptyString) :: chars s'
  end.

(** [for record in v]: lists yield their items, dicts their keys, strings
    their characters; nothing else is iterable. *)
Definition py_iter (v : Json) : Result (list Json) :=
  match v with
  | JArr l => inr l
  | JObj fs => inr (map (fun kv => JStr (fst kv)) fs)
  | JStr s => inr (chars s)
  | _ => inl (TypeError "object is not iterable")
  end.

(** ** Records of the module *)

Record BenchmarkRecord : Type := {
  name : string;
  wall_ms : Q
}.

Record EndpointMetric : Type := {
  average_response_time : Json;
  endpoint : Json;
  interval : string;
  requests_count : Json
}.

(** ** The Elasticsearch client

    The client is the external collaborator: it answers each call from the
    calls it received before.  Every call is recorded, as the tests do
    with a mock. *)

Inductive EsCall : Type :=
| Index (index : string) (body : Json) (doc_type : option string)
| Search (index : string) (body : Json).

Record AsyncElasticsearch : Type := {
  respond : list EsCall -> EsCall -> Result Json
}.

(** The awaitable given to [__init__]: a future, which gives its outcome
    at every await (the tests pass one), or a coroutine object, which can
    be awaited once only; [awaited] tells whether it has been. *)
Inductive Awaitable : Type :=
| Future_ (outcome : Result AsyncElasticsearch)
| Coro (outcome : Result AsyncElasticsearch) (awaited : bool).

(** [await a]: the awaitable afterwards and what the await gives. *)
Definition await (a : Awaitable) : Awaitable * Result AsyncElasticsearch :=
  match a with
  | Future_ r => (Future_ r, r)
  | Coro r false => (Coro r true, r)
  | Coro r true =>
      (Coro r true,
       inl (RuntimeError "cannot reuse already awaited coroutine"))
  end.

(** The fields of an [ElasticSearchMetricsManager] object. *)
Record ElasticSearchMetricsManager : Type := {
  client : Awaitable;
  index : string;
  es : option AsyncElasticsearch;
  mapping_requested : Json
}.

(** A coroutine handed to [create_task]: the only one of the module is
    [self._store(data)]. *)
Inductive Coroutine : Type :=
| Store_coro (data : BenchmarkRecord).

Record Env : Type := {
  time_now : Q;                 (* what time() returns *)
  datetime_now : string;        (* what datetime.now().isoformat() returns *)
  manager : ElasticSearchMetricsManager;
  es_calls : list EsCall;       (* calls the client received, oldest first *)
  tasks : list Coroutine;       (* scheduled, not yet run *)
  finished : list (Result unit) (* outcomes of the tasks that ran *)
}.

Definition set_time (t : Q) (e : Env) : Env :=
  {| time_now := t; datetime_now := datetime_now e; manager := manager e;
     es_calls := es_calls e; tasks := tasks e; finished := finished e |}.

Definition set_datetime (d : string) (e : Env) : Env :=
  {| time_now := time_now e; datetime_now := d; manager := manager e;
     es_calls := es_calls e; tasks := tasks e; finished := finished e |}.

Definition set_manager (m : ElasticSearchMetricsManager) (e : Env) : Env :=
  {| time_now := time_now e; datetime_now := datetime_now e; manager := m;
     es_calls := es_calls e; tasks := tasks e; finished := finished e |}.

Definition set_es_calls (c : list EsCall) (e : Env) : Env :=
  {| time_now := time_now e; datetime_now := datetime_now e;
     manager := manager e; es_calls := c; tasks := tasks e;
     finished := finished e |}.

Definition set_tasks (t : list Coroutine) (e : Env) : Env :=
  {| time_now := time_now e; datetime_now := datetime_now e;
     manager := manager e; es_calls := es_calls e; tasks := t;
     finished := finished e |}.

Definition set_finished (f : list (Result unit)) (e : Env) : Env :=
  {| time_now := time_now e; datetime_now := datetime_now e;
     manager := manager e; es_calls := es_calls e; tasks := tasks e;
     finished := f |}.

(** ** The monad of the embedding

    A computation maps an environment to the final environment, the
    records passed to the completion callback on the way (oldest first),
    and a value or the exception raised. *)

Record Out (A : Type) : Type := mkOut {
  env_of : Env;
  measured : list BenchmarkRecord;
  result : Result A
}.
Arguments mkOut {A} _ _ _.
Arguments env_of {A} _.
Arguments measured {A} _.
Arguments result {A} _.

Definition M (A : Type) : Type := Env -> Out A.

Definition ret {A} (x : A) : M A := fun e => mkOut e [] (inr x).

Definition raise {A} (x : Exn) : M A := fun e => mkOut e [] (inl x).

Definition bind {A B} (c : M A) (k : A -> M B) : M B :=
  fun e =>
    match c e with
    | mkOut e1 m1 (inl x) => mkOut e1 m1 (inl x)
    | mkOut e1 m1 (inr a) =>
        match k a e1 with
        | mkOut e2 m2 r => mkOut e2 (m1 ++ m2) r
        end
    end.

Notation "x <- c ;; k" := (bind c (fun x => k))
  (at level 61, c at next level, right associativity).
Notation "c ;;; k" := (bind c (fun _ => k))
  (at level 61, right associativity).

Definition get_env : M Env := fun e => mkOut e [] (inr e).

Definition modify (f : Env -> Env) : M unit := fun e => mkOut (f e) [] (inr tt).

Definition of_result {A} (r : Result A) : M A := fun e => mkOut e [] r.

(** Code outside the module (the downstream handler, a completion
    callback) acts on the environment and cannot touch the records. *)
Definition Ext (A : Type) : Type := Env -> Env * Result A.

Definition lift {A} (c : Ext A) : M A :=
  fun e => match c e with (e1, r) => mkOut e1 [] r end.

(** [try: c]: the outcome of [c] as a value. *)
Definition attempt {A} (c : M A) : M (Result A) :=
  fun e => match c e with mkOut e1 m1 r => mkOut e1 m1 (inr r) end.

Fixpoint mapM {A B} (f : A -> M B) (l : list A) : M (list B) :=
  match l with
  | [] => ret []
  | x :: l' => y <- f x ;; ys <- mapM f l' ;; ret (y :: ys)
  end.

(** ** Benchmark: the scoped timer *)

Definition RequestMeasured : Type := BenchmarkRecord -> Ext unit.

Record Benchmark : Type := {
  b_name : string;
  done : RequestMeasured;
  start_time : Q
}.

Definition time : M Q := e <- get_env ;; ret (time_now e).

(** [self.done(record)]: the invocation is emitted, then the callback runs. *)
Definition call_done (f : RequestMeasured) (r : BenchmarkRecord) : M unit :=
  fun e => match f r e with (e1, x) => mkOut e1 [r] x end.

Module Benchmark_.

Definition __init__ (name : string) (done : RequestMeasured) : Benchmark :=
  {| b_name := name; done := done; start_time := 0 |}.

Definition __enter__ (self : Benchmark) : M Benchmark :=
  t <- time ;;
  ret {| b_name := b_name self; done := done self; start_time := t |}.

Definition take_record (self : Benchmark) : M BenchmarkRecord :=
  end_time <- time ;;
  ret {| name := b_name self;
         wall_ms := 1000 * (end_time - start_time self) |}.

(** Returns [None]: the exception of the body, if any, is not swallowed. *)
Definition __exit__ (self : Benchmark) (exc : option Exn) : M bool :=
  record <- take_record self ;;
  call_done (done self) record ;;;
  ret false.

End Benchmark_.

(** The context managers [get_route_handler] returns. *)
Inductive ContextManager : Type :=
| Timer (b : Benchmark)
| nullcontext.

Definition cm_enter (cm : ContextManager) : M ContextManager :=
  match cm with
  | Timer b => b' <- Benchmark_.__enter__ b ;; ret (Timer b')
  | nullcontext => ret nullcontext
  end.

Definition cm_exit (cm : ContextManager) (exc : option Exn) : M bool :=
  match cm with
  | Timer b => Benchmark_.__exit__ b exc
  | nullcontext => ret false
  end.

(** [with cm: body].  [__exit__] runs on both paths; an exception of the
    body is raised again unless [__exit__] returns a true value, in which
    case the statement ends without a value of the body. *)
Definition with_ {A} (cm : ContextManager) (body : M A) : M (option A) :=
  cm' <- cm_enter cm ;;
  r <- attempt body ;;
  match r with
  | inr v => cm_exit cm' None ;;; ret (Some v)
  | inl x =>
      swallow <- cm_exit cm' (Some x) ;;
      if swallow : bool then ret None else raise x
  end.

(** ** Routes (Starlette and FastAPI, as the handler uses them)

    The handler needs three things of a registered route: its [matches]
    method, and the attributes [endpoint] and [name], which a route class
    may lack ([Mount] has no [endpoint]). *)

Inductive Match : Type := NONE | PARTIAL | FULL.

Definition is_full (m : Match) : bool :=
  match m with FULL => true | _ => false end.

(** [request.scope] of an HTTP request. *)
Record Request : Type := {
  method : string;
  path : list string
}.

Record Response : Type := {
  status_code : nat;
  content : Json
}.

(** The handler function of a route: only its module is read. *)
Record Endpoint : Type := {
  __module__ : string
}.

Record BaseRoute : Type := {
  matches : Request -> Match;
  route_endpoint : option Endpoint;
  route_name : option string
}.

Inductive Segment : Type :=
| Lit (s : string)
| Param (p : string).

Definition Pattern : Type := list Segment.

Fixpoint has_slash (s : string) : bool :=
  match s with
  | EmptyString => false
  | String c s' => Ascii.eqb c "/"%char || has_slash s'
  end.

(** A path parameter takes one or more characters other than [/]. *)
Definition valid_value (s : string) : bool :=
  negb (String.eqb s "") && negb (has_slash s).

Definition seg_matches (sg : Segment) (s : string) : bool :=
  match sg with
  | Lit l => String.eqb l s
  | Param _ => valid_value s
  end.

Definition newline : string := String "010"%char EmptyString.

Fixpoint has_newline (s : string) : bool :=
  match s with
  | EmptyString => false
  | String c s' => Ascii.eqb c "010"%char || has_newline s'
  end.

(** The pattern is compiled to a regular expression closed by [$], which
    matches at the end of the path and also before a newline that ends
    it: the last segment of a pattern, when a literal, matches itself
    and itself followed by a newline.  A parameter takes newlines too. *)
Definition seg_matches_last (sg : Segment) (s : string) : bool :=
  match sg with
  | Lit l => String.eqb l s || String.eqb (l ++ newline)%string s
  | Param _ => valid_value s
  end.

Fixpoint path_matches (p : Pattern) (segs : list string) : bool :=
  match p, segs with
  | [], [] => true
  | sg :: p', s :: segs' =>
      match p', segs' with
      | [], [] => seg_matches_last sg s
      | _, _ => seg_matches sg s && path_matches p' segs'
      end
  | _, _ => false
  end.

(** [s] without the newline that ends it, if one does. *)
Fixpoint strip_final_newline (s : string) : string :=
  match s with
  | EmptyString => EmptyString
  | String c s' =>
      match s' with
      | EmptyString =>
          if Ascii.eqb c "010"%char then EmptyString else s
      | String _ _ => String c (strip_final_newline s')
      end
  end.

(** What may follow the slash after a mount's prefix: the rest of the
    path is taken by [.*] up to [$], so it holds no newline other than
    one that ends the path. *)
Fixpoint tail_matches (segs : list string) : bool :=
  match segs with
  | [] => false
  | s :: segs' =>
      match segs' with
      | [] => negb (has_newline (strip_final_newline s))
      | _ :: _ => negb (has_newline s) && tail_matches segs'
      end
  end.

(** A mount matches its prefix followed by a slash and such a rest. *)
Fixpoint prefix_matches (p : Pattern) (segs : list string) : bool :=
  match p, segs with
  | [], _ => tail_matches segs
  | sg :: p', s :: segs' => seg_matches sg s && prefix_matches p' segs'
  | _ :: _, [] => false
  end.

(** [Route.matches]: when the path matches, partial if the route lists
    methods and the request's is not among them, full otherwise. *)
Definition Route (p : Pattern) (methods : list string)
    (module_ : string) (fname : string) : BaseRoute :=
  {| matches := fun rq =>
       if path_matches p (path rq)
       then
         match methods with
         | [] => FULL
         | _ :: _ =>
             if existsb (String.eqb (method rq)) methods then FULL
             else PARTIAL
         end
       else NONE;
     route_endpoint := Some {| __module__ := module_ |};
     route_name := Some fname |}.

(** [Mount.matches]: any method; the pattern is the mount's path followed
    by [/{path:path}]. *)
Definition Mount (p : Pattern) (mname : string) : BaseRoute :=
  {| matches := fun rq => if prefix_matches p (path rq) then FULL else NONE;
     route_endpoint := None;
     route_name := Some mname |}.

(** [app.router.routes], in registration order. *)
Record FastAPI : Type := {
  routes : list BaseRoute
}.

Definition add_route (r : BaseRoute) (app : FastAPI) : FastAPI :=
  {| routes := routes app ++ [r] |}.

(** ** RequestMetricsHandler *)

Record RequestMetricsHandler : Type := {
  app : FastAPI;
  measure_routes : list string;
  request_measured : RequestMeasured
}.

(** [hasattr(route, ...)], [route] being a route or [None]. *)
Definition hasattr_endpoint (route : option BaseRoute) : bool :=
  match route with
  | Some r => match route_endpoint r with Some _ => true | None => false end
  | None => false
  end.

Definition hasattr_name (route : option BaseRoute) : bool :=
  match route with
  | Some r => match route_name r with Some _ => true | None => false end
  | None => false
  end.

Definition getattr_endpoint (route : option BaseRoute) : Result Endpoint :=
  match route with
  | Some r =>
      match route_endpoint r with
      | Some x => inr x
      | None => inl (AttributeError "endpoint")
      end
  | None => inl (AttributeError "endpoint")
  end.

Definition getattr_name (route : option BaseRoute) : Result string :=
  match route with
  | Some r =>
      match route_name r with
      | Some x => inr x
      | None => inl (AttributeError "name")
      end
  | None => inl (AttributeError "name")
  end.

Module Handler.

Definition is_route_measurable (self : RequestMetricsHandler)
    (route_name : string) : bool :=
  existsb (String.eqb route_name) (measure_routes self).

(** The loop over the routes; falling off its end returns [None]. *)
Fixpoint first_full (rs : list BaseRoute) (request : Request)
    : option BaseRoute :=
  match rs with
  | [] => None
  | r :: rs' =>
      if is_full (matches r request) then Some r else first_full rs' request
  end.

Definition get_matching_route (self : RequestMetricsHandler)
    (request : Request) : option BaseRoute :=
  first_full (routes (app self)) request.

Definition get_route_name (self : RequestMetricsHandler)
    (request : Request) : Result string :=
  let route := get_matching_route self request in
  if hasattr_endpoint route && hasattr_name route
  then
    match getattr_endpoint route with
    | inl x => inl x
    | inr ep =>
        match getattr_name route with
        | inl x => inl x
        | inr n => inr (__module__ ep ++ "." ++ n)%string
        end
    end
  else inr "".

Definition get_route_handler (self : RequestMetricsHandler)
    (request : Request) : Result ContextManager :=
  match get_route_name self request with
  | inl x => inl x
  | inr name =>
      inr (if is_route_measurable self name
           then Timer (Benchmark_.__init__ name (request_measured self))
           else nullcontext)
  end.

Definition __call__ (self : RequestMetricsHandler) (request : Request)
    (call_next : Request -> Ext Response) : M Response :=
  cm <- of_result (get_route_handler self request) ;;
  response <- with_ cm (lift (call_next request)) ;;
  match response with
  | Some r => ret r
  | None => raise (UnboundLocalError "response")
  end.

End Handler.

(** ** ElasticSearchMetricsManager *)

Definition get_manager : M ElasticSearchMetricsManager :=
  e <- get_env ;; ret (manager e).

Definition set_es (c : AsyncElasticsearch) : M unit :=
  modify (fun e =>
    set_manager {| client := client (manager e); index := index (manager e);
                   es := Some c;
                   mapping_requested := mapping_requested (manager e) |} e).

(** [await self.client]: the awaitable is the manager's own object, so
    its state after the await is kept in the field. *)
Definition await_client : M AsyncElasticsearch :=
  e <- get_env ;;
  modify (set_manager
            {| client := fst (await (client (manager e)));
               index := index (manager e); es := es (manager e);
               mapping_requested := mapping_requested (manager e) |}) ;;;
  of_result (snd (await (client (manager e)))).

Definition set_mapping_requested (v : Json) : M unit :=
  modify (fun e =>
    set_manager {| client := client (manager e); index := index (manager e);
                   es := es (manager e); mapping_requested := v |} e).

(** A method call on [self.es]: on [None] the attribute lookup fails;
    otherwise the client records the call and answers it. *)
Definition es_call (c : EsCall) : M Json :=
  e <- get_env ;;
  match es (manager e) with
  | None => raise (AttributeError "es")
  | Some cl =>
      modify (set_es_calls (es_calls e ++ [c])) ;;;
      of_result (respond cl (es_calls e) c)
  end.

Definition datetime_now_isoformat : M string :=
  e <- get_env ;; ret (datetime_now e).

(** [create_task(coro)]: the coroutine is queued on the event loop and
    does not start before the caller gives control back. *)
Definition create_task (c : Coroutine) : Ext unit :=
  fun e => (set_tasks (tasks e ++ [c]) e, inr tt).

Module ES.

Definition mapping : Json :=
  JObj [("properties",
         JObj [("timestamp", JObj [("type", JStr "date")]);
               ("endpoint", JObj [("type", JStr "keyword")]);
               ("wall_ms", JObj [("type", JStr "float")])])].

Definition default_index : string := "quepid_es_proxy.metrics".

Definition __init__ (client : Awaitable) (index : string)
    : ElasticSearchMetricsManager :=
  {| client := client; index := index; es := None;
     mapping_requested := JNull |}.

Definition create_mapping : M Json :=
  self <- get_manager ;;
  es_call (Index (index self) (JObj []) None) ;;;
  es_call (Index (index self) mapping (Some "_mapping")).

Definition setup : M unit :=
  self <- get_manager ;;
  (match es self with
   | None => c <- await_client ;; set_es c
   | Some _ => ret tt
   end) ;;;
  self <- get_manager ;;
  if is_none (mapping_requested self)
  then r <- create_mapping ;; set_mapping_requested r
  else ret tt.

Definition supported : list string := ["1h"; "8h"; "24h"].

(** [if interval not in ["1h", "8h", "24h"]: interval = "24h"], where
    [interval] is a string or [None]. *)
Definition normalize (interval : option string) : string :=
  match interval with
  | Some s => if existsb (String.eqb s) supported then s else "24h"
  | None => "24h"
  end.

Definition search_body (interval : string) : Json :=
  JObj [("size", JNum 0);
        ("query",
         JObj [("range",
                JObj [("timestamp",
                       JObj [("gte", JStr ("now-" ++ interval)%string)])])]);
        ("aggs",
         JObj [("endpoints",
                JObj [("aggs",
                       JObj [("average_response_time_ms",
                              JObj [("avg",
                                     JObj [("field", JStr "wall_ms")])])]);
                      ("terms", JObj [("field", JStr "endpoint")])])])].

Definition to_metric (interval : string) (record : Json) : M EndpointMetric :=
  k <- of_result (py_get record "key") ;;
  a <- of_result (py_get record "average_response_time_ms") ;;
  v <- of_result (py_get a "value") ;;
  d <- of_result (py_get record "doc_count") ;;
  ret {| average_response_time := v; endpoint := k; interval := interval;
         requests_count := d |}.

Definition retrieve (interval : option string) : M (list EndpointMetric) :=
  let interval := normalize interval in
  setup ;;;
  self <- get_manager ;;
  response <- es_call (Search (index self) (search_body interval)) ;;
  a <- of_result (py_get response "aggregations") ;;
  e <- of_result (py_get a "endpoints") ;;
  b <- of_result (py_get e "buckets") ;;
  records <- of_result (py_iter b) ;;
  mapM (to_metric interval) records.

Definition metric_doc (data : BenchmarkRecord) (now : string) : Json :=
  JObj [("endpoint", JStr (name data));
        ("wall_ms", JNum (wall_ms data));
        ("timestamp", JStr now)].

Definition _store (data : BenchmarkRecord) : M unit :=
  setup ;;;
  self <- get_manager ;;
  now <- datetime_now_isoformat ;;
  es_call (Index (index self) (metric_doc data now) None) ;;;
  ret tt.

Definition store (data : BenchmarkRecord) : Ext unit :=
  create_task (Store_coro data).

End ES.

(** ** The event loop

    The loop runs a scheduled coroutine when the running code has given
    control back; what the coroutine raises stays with its task. *)

Definition run_coro (c : Coroutine) : M unit :=
  match c with
  | Store_coro data => ES._store data
  end.

Definition run_next_task (e : Env) : Env :=
  match tasks e with
  | [] => e
  | c :: rest =>
      match run_coro c (set_tasks rest e) with
      | mkOut e1 _ r => set_finished (finished e1 ++ [r]) e1
      end
  end.

(** ** BaseMetricsManager and add_metrics_app *)

(** The manager classes of the module. *)
Inductive MetricsManager : Type :=
| Base_manager
| ES_manager.

Definition manager_store (m : MetricsManager) : RequestMeasured :=
  match m with
  | Base_manager => fun _ e => (e, inr tt)
  | ES_manager => ES.store
  end.

(** [BaseMetricsManager.retrieve] is [pass]: it returns [None]. *)
Definition manager_retrieve (m : MetricsManager) (interval : option string)
    : M (option (list EndpointMetric)) :=
  match m with
  | Base_manager => ret None
  | ES_manager => l <- ES.retrieve interval ;; ret (Some l)
  end.

(** [app.mount(path="/metrics", app=metrics_app, name="metrics")]. *)
Definition mount_metrics (app : FastAPI) : FastAPI :=
  add_route (Mount [Lit "metrics"] "metrics") app.

(** The handler [add_metrics_app] builds.  It keeps the application
    object, so [app] is the application as it is when a request comes. *)
Definition metrics_handler (app : FastAPI) (m : MetricsManager)
    (measure_routes : list string) : RequestMetricsHandler :=
  {| app := app; measure_routes := measure_routes;
     request_measured := manager_store m |}.

Definition timing_middleware (app : FastAPI) (m : MetricsManager)
    (measure_routes : list string) (request : Request)
    (call_next : Request -> Ext Response) : M Response :=
  Handler.__call__ (metrics_handler app m measure_routes) request call_next.

(** [get_metrics(interval: str = "24h")]: [None] is a request without
    the query parameter. *)
Definition get_metrics (m : MetricsManager) (query : option string)
    : M (option (list EndpointMetric)) :=
  let interval := match query with Some s => s | None => "24h" end in
  manager_retrieve m (Some interval).

(** ** The applications of the repository *)

(** The routes [FastAPI()] registers by itself, before any other. *)
Definition fastapi_routes : list BaseRoute :=
  [ Route [Lit "openapi.json"] ["GET"; "HEAD"] "fastapi.applications" "openapi";
    Route [Lit "docs"] ["GET"; "HEAD"] "fastapi.applications" "swagger_ui_html";
    Route [Lit "docs"; Lit "oauth2-redirect"] ["GET"; "HEAD"]
      "fastapi.applications" "swagger_ui_redirect";
    Route [Lit "redoc"] ["GET"; "HEAD"] "fastapi.applications" "redoc_html" ].

(** quepid_es_proxy/main.py *)
Module Main.

Definition index_route : Pattern := [Param "index_name"].

Definition app : FastAPI :=
  add_route (Route [Param "index_name"; Lit "_doc"; Param "doc_id";
                    Lit "_explain"] ["POST"] "quepid_es_proxy.main" "explain")
 (add_route (Route index_route ["GET"] "quepid_es_proxy.main"
               "explain_missing_documents")
 (add_route (Route index_route ["POST"] "quepid_es_proxy.main"
               "search_proxy")
 (add_route (Route [Lit "healthcheck"] ["GET"] "quepid_es_proxy.main" "root")
 (mount_metrics {| routes := fastapi_routes |})))).

Definition measure_routes : list string :=
  [ "quepid_es_proxy.main.explain_missing_documents";
    "quepid_es_proxy.main.explain";
    "quepid_es_proxy.main.search_proxy" ].

Definition handler : RequestMetricsHandler :=
  metrics_handler app ES_manager measure_routes.

End Main.

(** tests/units/test_metrics.py *)
Module Tests.

Definition app : FastAPI :=
  add_route (Route [Lit "unmeasured"] ["GET"] "units.test_metrics"
               "excluded_route")
 (add_route (Route [Lit "measured-simple"] ["GET"] "units.test_metrics"
               "simple_route")
 (add_route (Route [Lit "measured-dynamic"; Param "dynamic"] ["GET"]
               "units.test_metrics" "dymic_route")
 (mount_metrics {| routes := fastapi_routes |}))).

Definition measure_routes : list string :=
  [ "units.test_metrics.dymic_route"; "units.test_metrics.simple_route" ].

Definition handler : RequestMetricsHandler :=
  metrics_handler app Base_manager measure_routes.

(** [client.search.return_value] of [test_es_manager_retrieve]. *)
Definition search_return_value : Json :=
  JObj [("aggregations",
         JObj [("endpoints",
                JObj [("buckets",
                       JArr [JObj [("key", JStr "test-endpoint");
                                   ("average_response_time_ms",
                                    JObj [("value", JNum 21)]);
                                   ("doc_count", JNum 777)]])])])].

(** A client that accepts every call, as [AsyncMock] does. *)
Definition mock_client : AsyncElasticsearch :=
  {| respond := fun _ c =>
       match c with
       | Index _ _ _ => inr (JObj [("result", JStr "created")])
       | Search _ _ => inr search_return_value
       end |}.

(** A client whose backend rejects every call. *)
Definition broken_client : AsyncElasticsearch :=
  {| respond := fun _ _ => inl (Fault "ConnectionError") |}.

Definition setup_es_manager : ElasticSearchMetricsManager :=
  ES.__init__ (Future_ (inr mock_client)) ES.default_index.

Definition env0 : Env :=
  {| time_now := 100; datetime_now := "2021-03-01T10:00:00";
     manager := setup_es_manager; es_calls := []; tasks := [];
     finished := [] |}.

(** A downstream handler that takes a quarter of a second. *)
Definition ok_handler : Request -> Ext Response :=
  fun _ e => (set_time (time_now e + (1 # 4)) e,
              inr {| status_code := 200; content := JNull |}).

Definition failing_handler : Request -> Ext Response :=
  fun _ e => (set_time (time_now e + (1 # 4)) e, inl (Fault "boom")).

Definition get (segs : list string) : Request :=
  {| method := "GET"; path := segs |}.

End Tests.

(** ** Vocabulary of the properties *)

(** The record the timer takes for a request resolved to [route]: the
    clock is read on entry and again when the downstream handler is done. *)
Definition record_of (request : Request) (call_next : Request -> Ext Response)
    (e : Env) (route : string) : BenchmarkRecord :=
  {| name := route;
     wall_ms := 1000 * (time_now (fst (call_next request e)) - time_now e) |}.

(** The calls [create_mapping] makes for a manager, none when the mapping
    was requested before. *)
Definition init_calls (m : ElasticSearchMetricsManager) : list EsCall :=
  if is_none (mapping_requested m)
  then [Index (index m) (JObj []) None;
        Index (index m) ES.mapping (Some "_mapping")]
  else [].

(** The documents sent to index [idx]: the bodies of the [index] calls
    without a [doc_type]. *)
Fixpoint documents (idx : string) (calls : list EsCall) : list Json :=
  match calls with
  | [] => []
  | Index i body None :: calls' =>
      if String.eqb i idx then body :: documents idx calls'
      else documents idx calls'
  | _ :: calls' => documents idx calls'
  end.

Definition has_field (k : string) (doc : Json) : bool :=
  match doc with
  | JObj fs => match assoc k fs with Some _ => true | None => false end
  | _ => false
  end.



(** What [retrieve] does once [setup] is through, on the environment
    [setup] left. *)
Definition after_setup (iv : string) : M (list EndpointMetric) :=
  self <- get_manager ;;
  response <- es_call (Search (index self) (ES.search_body iv)) ;;
  a <- of_result (py_get response "aggregations") ;;
  e <- of_result (py_get a "endpoints") ;;
  b <- of_result (py_get e "buckets") ;;
  records <- of_result (py_iter b) ;;
  mapM (ES.to_metric iv) records.

(** What [_store] does once [setup] is through. *)
Definition after_setup_store (data : BenchmarkRecord) : M unit :=
  self <- get_manager ;;
  now <- datetime_now_isoformat ;;
  es_call (Index (index self) (ES.metric_doc data now) None) ;;;
  ret tt.

(** ** Vocabulary of the further properties *)

(** The handler with another application object. *)
Definition with_app (a : FastAPI) (self : RequestMetricsHandler)
    : RequestMetricsHandler :=
  {| app := a; measure_routes := measure_routes self;
     request_measured := request_measured self |}.

(** A completion callback that raises. *)
Definition failing_store : RequestMeasured :=
  fun _ e => (e, inl (Fault "store failed")).

(** The value under [k] of a dict, [None] when missing or when [v] is not
    a dict. *)
Definition field (k : string) (v : Json) : Json :=
  match v with
  | JObj fs => match assoc k fs with Some x => x | None => JNull end
  | _ => JNull
  end.

Definition is_dict (v : Json) : bool :=
  match v with JObj _ => true | _ => false end.

(** A bucket [retrieve] can read: a dict whose
    [average_response_time_ms] is a dict. *)
Definition readable_bucket (b : Json) : bool :=
  is_dict b && is_dict (field "average_response_time_ms" b).

(** The metric [retrieve] builds from a readable bucket. *)
Definition metric_of (iv : string) (b : Json) : EndpointMetric :=
  {| average_response_time :=
       field "value" (field "average_response_time_ms" b);
     endpoint := field "key" b;
     interval := iv;
     requests_count := field "doc_count" b |}.

(** A search response whose buckets are [bs]. *)
Definition buckets_response (bs : list Json) : Json :=
  JObj [("aggregations", JObj [("endpoints", JObj [("buckets", JArr bs)])])].

(** A client that takes documents and searches but rejects the mapping
    request. *)
Definition no_mapping_client : AsyncElasticsearch :=
  {| respond := fun _ c =>
       match c with
       | Index _ _ (Some _) => inl (Fault "mapping rejected")
       | Index _ _ None => inr (JObj [("result", JStr "created")])
       | Search _ _ => inr (buckets_response [])
       end |}.

(** A bucket with all its fields, and one without an average. *)
Definition full_bucket : Json :=
  JObj [("key", JStr "a");
        ("average_response_time_ms", JObj [("value", JNum 5)]);
        ("doc_count", JNum 1)].

Definition bare_bucket : Json :=
  JObj [("key", JStr "b"); ("doc_count", JNum 0)].

Definition two_bucket_client : AsyncElasticsearch :=
  {| respond := fun _ _ => inr (buckets_response [full_bucket; bare_bucket]) |}.

(** An environment whose manager is initialized over [cl]. *)
Definition initialized_env (cl : AsyncElasticsearch) : Env :=
  set_manager {| client := Future_ (inr cl); index := ES.default_index;
                 es := Some cl; mapping_requested := JBool true |}
    Tests.env0.

(** The environment whose manager was given another awaitable. *)
Definition with_client (c : Awaitable) (e : Env) : Env :=
  set_manager {| client := c; index := index (manager e);
                 es := es (manager e);
                 mapping_requested := mapping_requested (manager e) |} e.

Fixpoint has_dot (s : string) : bool :=
  match s with
  | EmptyString => false
  | String c s' => Ascii.eqb c "."%char || has_dot s'
  end.

(** The route identifier of [get_route_name]. *)
Definition identifier (module_ fname : string) : string :=
  (module_ ++ "." ++ fname)%string.

(** The one-segment paths that GET routes registered before
    [/{index_name}] take in main.py: their literals, also followed by a
    newline. *)
Definition reserved_names : list string :=
  flat_map (fun n => [n; (n ++ newline)%string])
    ["openapi.json"; "docs"; "redoc"; "healthcheck"].

(** Awaiting [c] now gives the connection [cl]. *)
Definition yields (c : Awaitable) (cl : AsyncElasticsearch) : Prop :=
  snd (await c) = inr cl.


(** * Properties *)

(** ** Route identity *)

Section Resolution.

Variable self : RequestMetricsHandler.
Variable request : Request.

Lemma first_full_some (rs : list BaseRoute) (r : BaseRoute) :
  Handler.first_full rs request = Some r ->
  exists pre post,
    rs = pre ++ r :: post /\ matches r request = FULL /\
    forall r', In r' pre -> matches r' request <> FULL.
Proof.
  induction rs as [|r0 rs IH]; simpl; [discriminate|].
  destruct (matches r0 request) eqn:Hm; simpl.
  - intros H. destruct (IH H) as (pre & post & -> & Hf & Hpre).
    exists (r0 :: pre), post. repeat split; auto.
    intros r' [<-|Hin]; [congruence | auto].
  - intros H. destruct (IH H) as (pre & post & -> & Hf & Hpre).
    exists (r0 :: pre), post. repeat split; auto.
    intros r' [<-|Hin]; [congruence | auto].
  - intros [= <-]. exists [], rs. repeat split; auto.
Qed.

Lemma first_full_none (rs : list BaseRoute) :
  Handler.first_full rs request = None ->
  forall r, In r rs -> matches r request <> FULL.
Proof.
  induction rs as [|r0 rs IH]; simpl; [intros _ r []|].
  destruct (matches r0 request) eqn:Hm; simpl; try discriminate;
    intros H r [<-|Hin]; try congruence; auto.
Qed.


Lemma get_route_name_cases :
  match Handler.get_matching_route self request with
  | Some r =>
      match route_endpoint r, route_name r with
      | Some ep, Some n =>
          Handler.get_route_name self request
          = inr (__module__ ep ++ "." ++ n)%string
      | _, _ => Handler.get_route_name self request = inr ""
      end
  | None => Handler.get_route_name self request = inr ""
  end.
Proof.
  unfold Handler.get_route_name.
  destruct (Handler.get_matching_route self request) as [r|]; simpl; auto.
  destruct (route_endpoint r), (route_name r); reflexivity.
Qed.

Lemma get_route_name_total :
  exists n, Handler.get_route_name self request = inr n.
Proof.
  pose proof get_route_name_cases as H.
  destruct (Handler.get_matching_route self request) as [r|]; eauto.
  destruct (route_endpoint r), (route_name r); eauto.
Qed.

End Resolution.

(** C5. Resolution scans the routes in registration order and takes the
    first that fully matches the request; it never raises: with no match,
    or a matched route without [endpoint] or [name], the identifier is
    empty, and otherwise it is the endpoint's module and the route's
    name joined by a dot. *)
Theorem resolution_first_match_never_raises
    (self : RequestMetricsHandler) (request : Request) :
  match Handler.get_matching_route self request with
  | Some r =>
      exists pre post,
        routes (app self) = pre ++ r :: post /\
        matches r request = FULL /\
        forall r', In r' pre -> matches r' request <> FULL
  | None => forall r, In r (routes (app self)) -> matches r request <> FULL
  end
  /\ (exists n, Handler.get_route_name self request = inr n)
  /\ (Handler.get_matching_route self request = None ->
      Handler.get_route_name self request = inr "")
  /\ (forall r, Handler.get_matching_route self request = Some r ->
      route_endpoint r = None \/ route_name r = None ->
      Handler.get_route_name self request = inr "")
  /\ (forall r ep n, Handler.get_matching_route self request = Some r ->
      route_endpoint r = Some ep -> route_name r = Some n ->
      Handler.get_route_name self request
      = inr (__module__ ep ++ "." ++ n)%string).
Proof.
  pose proof (get_route_name_cases self request) as Hc.
  split; [|split; [apply get_route_name_total|]].
  - unfold Handler.get_matching_route.
    destruct (Handler.first_full (routes (app self)) request) eqn:H.
    + now apply first_full_some.
    + now apply first_full_none.
  - repeat split.
    + intros H. now rewrite H in Hc.
    + intros r H Hmiss. rewrite H in Hc.
      destruct (route_endpoint r), (route_name r); auto;
        destruct Hmiss; discriminate.
    + intros r ep n H He Hn. rewrite H in Hc. now rewrite He, Hn in Hc.
Qed.

(** ** The middleware *)

Ltac run_handler :=
  unfold timing_middleware, Handler.__call__, Handler.get_route_handler,
    with_, cm_enter, cm_exit, Benchmark_.__exit__, Benchmark_.__enter__,
    Benchmark_.take_record, Benchmark_.__init__, call_done, attempt, lift,
    time, get_env, of_result, bind, ret, raise.

Section Middleware.

Variable self : RequestMetricsHandler.
Variable request : Request.
Variable call_next : Request -> Ext Response.
Variable e : Env.
Variable route : string.

Hypothesis resolved : Handler.get_route_name self request = inr route.

Lemma call_measured :
  Handler.is_route_measurable self route = true ->
  Handler.__call__ self request call_next e
  = let down := call_next request e in
    let cb := request_measured self
                (record_of request call_next e route) (fst down) in
    mkOut (fst cb) [record_of request call_next e route]
      (match snd cb with inl x => inl x | inr _ => snd down end).
Proof.
  intros Hm. unfold record_of. run_handler. rewrite resolved, Hm.
  destruct (call_next request e) as [e1 [x|v]]; simpl;
    match goal with
    | |- context [request_measured self ?r e1] =>
        destruct (request_measured self r e1) as [e2 [y|[]]]
    end; reflexivity.
Qed.

Lemma call_unmeasured :
  Handler.is_route_measurable self route = false ->
  Handler.__call__ self request call_next e
  = let down := call_next request e in mkOut (fst down) [] (snd down).
Proof.
  intros Hm. run_handler. rewrite resolved, Hm.
  destruct (call_next request e) as [e1 [x|v]]; reflexivity.
Qed.

End Middleware.

Lemma wall_ms_nonneg (t0 t1 : Q) : t0 <= t1 -> 0 <= 1000 * (t1 - t0).
Proof. intros H. lra. Qed.

(** C1. A request whose identifier is in [measure_routes] makes the
    middleware invoke the completion callback exactly once, after the
    downstream handler, with a record named by the identifier whose
    [wall_ms] is 1000 times the difference of the clock readings at exit
    and at entry; that is not negative when the clock did not go back. *)
Theorem measured_request_stored_once
    (self : RequestMetricsHandler) (request : Request)
    (call_next : Request -> Ext Response) (e : Env) (route : string) :
  Handler.get_route_name self request = inr route ->
  Handler.is_route_measurable self route = true ->
  let o := Handler.__call__ self request call_next e in
  let entry := time_now e in
  let exit := time_now (fst (call_next request e)) in
  let record := {| name := route; wall_ms := 1000 * (exit - entry) |} in
  measured o = [record]
  /\ env_of o = fst (request_measured self record (fst (call_next request e)))
  /\ (entry <= exit -> 0 <= wall_ms record).
Proof.
  intros Hr Hm. cbv zeta.
  rewrite (call_measured self request call_next e route Hr Hm).
  simpl. repeat split. apply wall_ms_nonneg.
Qed.

Lemma measured_request_stored_once_witness :
  let rq := Tests.get ["measured-dynamic"; "dynamic"] in
  let o := Handler.__call__ Tests.handler rq Tests.ok_handler Tests.env0 in
  measured o = [{| name := "units.test_metrics.dymic_route";
                   wall_ms := 1000 * (100 + (1 # 4) - 100) |}]
  /\ 0 <= 1000 * (100 + (1 # 4) - 100).
Proof.
  cbv zeta.
  pose proof (measured_request_stored_once Tests.handler
                (Tests.get ["measured-dynamic"; "dynamic"]) Tests.ok_handler
                Tests.env0 "units.test_metrics.dymic_route"
                eq_refl eq_refl) as H.
  cbv zeta in H. destruct H as (H1 & _ & H3).
  split; [exact H1 | apply H3; simpl; lra].
Defined.

(** C2. A request whose identifier is not in [measure_routes] goes to
    the downstream handler directly: the completion callback is never
    invoked and outcome and environment are the handler's.  A request no
    route matches has the empty identifier and falls under this whenever
    the empty identifier is not listed. *)
Theorem unmeasured_request_never_stored
    (self : RequestMetricsHandler) (request : Request)
    (call_next : Request -> Ext Response) (e : Env) (route : string) :
  Handler.get_route_name self request = inr route ->
  Handler.is_route_measurable self route = false ->
  let o := Handler.__call__ self request call_next e in
  measured o = []
  /\ env_of o = fst (call_next request e)
  /\ result o = snd (call_next request e)
  /\ (Handler.get_matching_route self request = None -> route = "").
Proof.
  intros Hr Hm. cbv zeta.
  rewrite (call_unmeasured self request call_next e route Hr Hm).
  simpl. repeat split.
  intros Hnone.
  pose proof (get_route_name_cases self request) as Hc.
  rewrite Hnone in Hc. congruence.
Qed.

Lemma unmeasured_request_never_stored_witness :
  let rq := Tests.get ["no-such-route"] in
  Handler.get_matching_route Tests.handler rq = None
  /\ measured (Handler.__call__ Tests.handler rq Tests.ok_handler Tests.env0)
     = [].
Proof.
  cbv zeta. split; [reflexivity|].
  exact (proj1 (unmeasured_request_never_stored Tests.handler
                  (Tests.get ["no-such-route"]) Tests.ok_handler Tests.env0 ""
                  eq_refl eq_refl)).
Defined.

(** The tests of the middleware: [store] is called once for the two
    measured routes and not at all for the excluded one. *)
Example test_dynamic_route_measured :
  length (measured (Handler.__call__ Tests.handler
                      (Tests.get ["measured-dynamic"; "dynamic"])
                      Tests.ok_handler Tests.env0)) = 1%nat.
Proof. reflexivity. Qed.

Example test_simple_route_measured :
  length (measured (Handler.__call__ Tests.handler
                      (Tests.get ["measured-simple"])
                      Tests.ok_handler Tests.env0)) = 1%nat.
Proof. reflexivity. Qed.

Example test_exclude_route_measure :
  measured (Handler.__call__ Tests.handler (Tests.get ["unmeasured"])
              Tests.ok_handler Tests.env0) = [].
Proof. reflexivity. Qed.

Lemma manager_store_returns (m : MetricsManager) (r : BenchmarkRecord)
    (e : Env) :
  snd (manager_store m r e) = inr tt.
Proof. destruct m; reflexivity. Qed.

(** C3. When the downstream handler of a measured request raises, the
    timer's exit still runs: the store operation of the manager is
    invoked exactly once with a record of that route, and the exception
    of the handler leaves the middleware. *)
Theorem fault_measured_and_propagated
    (app : FastAPI) (m : MetricsManager) (measure_routes : list string)
    (request : Request) (call_next : Request -> Ext Response) (e : Env)
    (route : string) (x : Exn) :
  let self := metrics_handler app m measure_routes in
  Handler.get_route_name self request = inr route ->
  Handler.is_route_measurable self route = true ->
  snd (call_next request e) = inl x ->
  let o := timing_middleware app m measure_routes request call_next e in
  (exists record,
      measured o = [record] /\ name record = route /\
      env_of o = fst (manager_store m record (fst (call_next request e))))
  /\ result o = inl x.
Proof.
  cbv zeta. intros Hr Hm Hx. unfold timing_middleware.
  rewrite (call_measured _ request call_next e route Hr Hm).
  cbv zeta. simpl. split.
  - eexists. repeat split.
  - rewrite manager_store_returns. exact Hx.
Qed.

Lemma fault_measured_and_propagated_witness :
  let o := timing_middleware Tests.app Base_manager Tests.measure_routes
             (Tests.get ["measured-simple"]) Tests.failing_handler Tests.env0 in
  (exists record,
      measured o = [record] /\ name record = "units.test_metrics.simple_route")
  /\ result o = inl (Fault "boom").
Proof.
  cbv zeta.
  destruct (fault_measured_and_propagated Tests.app Base_manager
              Tests.measure_routes (Tests.get ["measured-simple"])
              Tests.failing_handler Tests.env0
              "units.test_metrics.simple_route" (Fault "boom")
              eq_refl eq_refl eq_refl) as ((r & H1 & H2 & _) & H3).
  split; [exists r; split; assumption | exact H3].
Defined.

(** ** The Elasticsearch manager *)

Ltac run_es :=
  unfold ES._store, ES.retrieve, ES.setup, ES.create_mapping, es_call,
    await_client, set_es, set_mapping_requested, get_manager,
    datetime_now_isoformat, modify, get_env, of_result, bind, ret, raise;
  simpl.

Lemma setup_initialized (e : Env) (cl : AsyncElasticsearch) :
  es (manager e) = Some cl ->
  is_none (mapping_requested (manager e)) = false ->
  ES.setup e = mkOut e [] (inr tt).
Proof.
  intros He Hm. run_es. rewrite He. simpl. rewrite Hm. reflexivity.
Qed.

Lemma setup_success (e : Env) :
  result (ES.setup e) = inr tt ->
  let e' := env_of (ES.setup e) in
  es_calls e' = es_calls e ++ init_calls (manager e)
  /\ index (manager e') = index (manager e)
  /\ (exists cl, es (manager e') = Some cl)
  /\ datetime_now e' = datetime_now e
  /\ tasks e' = tasks e
  /\ finished e' = finished e
  /\ measured (ES.setup e) = [].
Proof.
  destruct e as [t d [c idx [cl|] mr] calls tk fin]; unfold init_calls;
    run_es.
  - destruct (is_none mr); simpl.
    + destruct (respond cl calls _) as [x|r1]; simpl; [discriminate|].
      destruct (respond cl _ _) as [x|r2]; simpl; [discriminate|].
      intros _. rewrite <- app_assoc. simpl. repeat split; eauto.
    + intros _. rewrite app_nil_r. repeat split; eauto.
  - destruct (snd (await c)) as [x|cl]; simpl; [discriminate|].
    destruct (is_none mr); simpl.
    + destruct (respond cl calls _) as [x|r1]; simpl; [discriminate|].
      destruct (respond cl _ _) as [x|r2]; simpl; [discriminate|].
      intros _. rewrite <- app_assoc. simpl. repeat split; eauto.
    + intros _. rewrite app_nil_r. repeat split; eauto.
Qed.

Lemma is_none_false (v : Json) : v <> JNull -> is_none v = false.
Proof. destruct v; simpl; congruence. Qed.

Lemma setup_fresh (e : Env) (c : Awaitable) (cl : AsyncElasticsearch)
    (idx : string) :
  manager e = ES.__init__ c idx ->
  yields c cl ->
  es (manager (env_of (ES.setup e))) = Some cl
  /\ exists rest,
       es_calls (env_of (ES.setup e))
       = es_calls e ++ Index idx (JObj []) None :: rest.
Proof.
  destruct e as [t d m calls tk fin]. simpl. intros -> Hy. run_es.
  unfold yields in Hy. destruct (await c) as [c' r]. simpl in *. subst r.
  simpl.
  destruct (respond cl calls _) as [x|r1]; simpl; [eauto|].
  destruct (respond cl _ _) as [x|r2]; simpl; rewrite <- app_assoc;
    simpl; eauto.
Qed.

(** Sequencing after [setup]. *)
Lemma after_setup_ok {B} (k : M B) (e : Env) :
  result (ES.setup e) = inr tt ->
  (ES.setup ;;; k) e = k (env_of (ES.setup e)).
Proof.
  intros Hr. destruct (setup_success e Hr) as (_ & _ & _ & _ & _ & _ & Hm).
  unfold bind. destruct (ES.setup e) as [e1 m1 r]. simpl in *. subst.
  destruct (k e1); reflexivity.
Qed.

Lemma after_setup_env {B} (k : M B) (e : Env) :
  env_of ((ES.setup ;;; k) e)
  = match result (ES.setup e) with
    | inl _ => env_of (ES.setup e)
    | inr _ => env_of (k (env_of (ES.setup e)))
    end.
Proof.
  unfold bind. destruct (ES.setup e) as [e1 m1 [x|[]]]; simpl;
    [reflexivity|]. destruct (k e1); reflexivity.
Qed.

Lemma to_metric_run (iv : string) (record : Json) (e : Env) :
  exists r,
    ES.to_metric iv record e = mkOut e [] r
    /\ forall mt, r = inr mt -> interval mt = iv.
Proof.
  unfold ES.to_metric, of_result, bind, ret.
  destruct (py_get record "key") as [x|k1];
    [eexists; split; [reflexivity | discriminate]|].
  destruct (py_get record "average_response_time_ms") as [x|k2];
    [eexists; split; [reflexivity | discriminate]|].
  destruct (py_get k2 "value") as [x|k3];
    [eexists; split; [reflexivity | discriminate]|].
  destruct (py_get record "doc_count") as [x|k4];
    [eexists; split; [reflexivity | discriminate]|].
  eexists; split; [reflexivity|]. now intros mt [= <-].
Qed.

Lemma mapM_to_metric (iv : string) (records : list Json) (e : Env) :
  env_of (mapM (ES.to_metric iv) records e) = e
  /\ measured (mapM (ES.to_metric iv) records e) = []
  /\ forall l, result (mapM (ES.to_metric iv) records e) = inr l ->
               Forall (fun mt => interval mt = iv) l.
Proof.
  induction records as [|rc records IH]; simpl.
  - repeat split. intros l [= <-]. constructor.
  - unfold bind, ret.
    destruct (to_metric_run iv rc e) as (r & -> & Hiv).
    destruct r as [x|mt]; [repeat split; discriminate|].
    destruct IH as (IH1 & IH2 & IH3).
    destruct (mapM (ES.to_metric iv) records e) as [e1 m1 [x|l']];
      simpl in *; subst; repeat split; try discriminate.
    intros l [= <-]. constructor; [now apply Hiv | now apply IH3].
Qed.

Lemma retrieve_unfold (i : option string) :
  ES.retrieve i = (ES.setup ;;; after_setup (ES.normalize i)).
Proof. reflexivity. Qed.

Lemma store_unfold (data : BenchmarkRecord) :
  ES._store data = (ES.setup ;;; after_setup_store data).
Proof. reflexivity. Qed.

Lemma after_setup_spec (iv : string) (e : Env) :
  (exists rest, es_calls (env_of (after_setup iv e)) = es_calls e ++ rest)
  /\ manager (env_of (after_setup iv e)) = manager e
  /\ forall l, result (after_setup iv e) = inr l ->
               Forall (fun mt => interval mt = iv) l.
Proof.
  unfold after_setup. run_es.
  destruct (es (manager e)) as [cl|]; simpl;
    [|repeat split; [exists []; now rewrite app_nil_r | discriminate]].
  destruct (respond cl _ _) as [x|resp]; simpl;
    [repeat split; [eauto | discriminate]|].
  destruct (py_get resp "aggregations") as [x|a]; simpl;
    [repeat split; [eauto | discriminate]|].
  destruct (py_get a "endpoints") as [x|en]; simpl;
    [repeat split; [eauto | discriminate]|].
  destruct (py_get en "buckets") as [x|b]; simpl;
    [repeat split; [eauto | discriminate]|].
  destruct (py_iter b) as [x|records]; simpl;
    [repeat split; [eauto | discriminate]|].
  match goal with
  | |- context [mapM (ES.to_metric iv) records ?e2] =>
      destruct (mapM_to_metric iv records e2) as (H1 & H2 & H3);
      destruct (mapM (ES.to_metric iv) records e2) as [e3 m3 r3]
  end.
  simpl in *. subst. simpl. repeat split; eauto.
Qed.

Lemma store_after_setup (data : BenchmarkRecord) (e : Env) :
  manager (env_of (after_setup_store data e)) = manager e
  /\ exists rest,
       es_calls (env_of (after_setup_store data e)) = es_calls e ++ rest.
Proof.
  unfold after_setup_store. run_es.
  destruct (es (manager e)) as [c|]; simpl;
    [|split; [reflexivity | exists []; now rewrite app_nil_r]].
  destruct (respond c _ _); simpl; eauto.
Qed.

Lemma after_setup_store_run (data : BenchmarkRecord) (e : Env)
    (cl : AsyncElasticsearch) :
  es (manager e) = Some cl ->
  let call := Index (index (manager e))
                (ES.metric_doc data (datetime_now e)) None in
  es_calls (env_of (after_setup_store data e)) = es_calls e ++ [call]
  /\ manager (env_of (after_setup_store data e)) = manager e
  /\ tasks (env_of (after_setup_store data e)) = tasks e
  /\ result (after_setup_store data e)
     = match respond cl (es_calls e) call with
       | inl x => inl x
       | inr _ => inr tt
       end.
Proof.
  intros He. cbv zeta. unfold after_setup_store. run_es. rewrite He. simpl.
  destruct (respond cl _ _); simpl; auto.
Qed.

Lemma after_setup_calls (iv : string) (e : Env) (cl : AsyncElasticsearch) :
  es (manager e) = Some cl ->
  es_calls (env_of (after_setup iv e))
  = es_calls e ++ [Search (index (manager e)) (ES.search_body iv)]
  /\ tasks (env_of (after_setup iv e)) = tasks e.
Proof.
  intros He. unfold after_setup. run_es. rewrite He. simpl.
  destruct (respond cl _ _) as [x|resp]; simpl; [auto|].
  destruct (py_get resp "aggregations") as [x|a]; simpl; [auto|].
  destruct (py_get a "endpoints") as [x|en]; simpl; [auto|].
  destruct (py_get en "buckets") as [x|b]; simpl; [auto|].
  destruct (py_iter b) as [x|records]; simpl; [auto|].
  match goal with
  | |- context [mapM (ES.to_metric iv) records ?e2] =>
      destruct (mapM_to_metric iv records e2) as (H1 & _ & _);
      destruct (mapM (ES.to_metric iv) records e2) as [e3 m3 r3]
  end.
  simpl in *. subst. simpl. auto.
Qed.

Lemma first_store_initializes (e : Env) (c : Awaitable)
    (cl : AsyncElasticsearch) (idx : string) (data : BenchmarkRecord) :
  manager e = ES.__init__ c idx ->
  yields c cl ->
  es (manager (env_of (ES._store data e))) = Some cl
  /\ exists rest,
       es_calls (env_of (ES._store data e))
       = es_calls e ++ Index idx (JObj []) None :: rest.
Proof.
  intros Hm Hy. destruct (setup_fresh e c cl idx Hm Hy) as (He & rest & Hc).
  rewrite store_unfold, after_setup_env.
  destruct (result (ES.setup e)) as [x|[]]; [eauto|].
  destruct (store_after_setup data (env_of (ES.setup e)))
    as (Hm' & rest' & Hc').
  rewrite Hm', Hc', Hc, <- app_assoc. simpl. eauto.
Qed.

Lemma first_retrieve_initializes (e : Env) (c : Awaitable)
    (cl : AsyncElasticsearch) (idx : string) (interval : option string) :
  manager e = ES.__init__ c idx ->
  yields c cl ->
  es (manager (env_of (ES.retrieve interval e))) = Some cl
  /\ exists rest,
       es_calls (env_of (ES.retrieve interval e))
       = es_calls e ++ Index idx (JObj []) None :: rest.
Proof.
  intros Hm Hy. destruct (setup_fresh e c cl idx Hm Hy) as (He & rest & Hc).
  rewrite retrieve_unfold, after_setup_env.
  destruct (result (ES.setup e)) as [x|[]]; [eauto|].
  destruct (after_setup_spec (ES.normalize interval) (env_of (ES.setup e)))
    as ((rest' & Hc') & Hm' & _).
  rewrite Hm', Hc', Hc, <- app_assoc. simpl. eauto.
Qed.

Lemma documents_app (idx : string) (l1 l2 : list EsCall) :
  documents idx (l1 ++ l2) = documents idx l1 ++ documents idx l2.
Proof.
  induction l1 as [|c l1 IH]; simpl; [reflexivity|].
  destruct c as [i body [dt|]|i body]; auto.
  destruct (String.eqb i idx); simpl; now rewrite IH.
Qed.

Lemma setup_first_use (e : Env) (c : Awaitable) (cl : AsyncElasticsearch)
    (idx : string) (r1 r2 : Json) :
  manager e = ES.__init__ c idx ->
  yields c cl ->
  respond cl (es_calls e) (Index idx (JObj []) None) = inr r1 ->
  respond cl (es_calls e ++ [Index idx (JObj []) None])
    (Index idx ES.mapping (Some "_mapping")) = inr r2 ->
  ES.setup e
  = mkOut
      (set_es_calls
         (es_calls e ++ [Index idx (JObj []) None;
                         Index idx ES.mapping (Some "_mapping")])
         (set_manager {| client := fst (await c); index := idx;
                         es := Some cl; mapping_requested := r2 |} e))
      [] (inr tt).
Proof.
  destruct e as [t d m calls tk fin]. simpl. intros -> Hy H1 H2. run_es.
  unfold yields in Hy. destruct (await c) as [c' r]. simpl in *. subst r.
  simpl. rewrite H1. simpl. rewrite H2. simpl.
  now rewrite <- app_assoc.
Qed.

(** C7. Construction sets neither connection nor mapping and has no
    access to the backend.  On a manager as constructed whose client can
    be awaited and whose backend answers the two initialization calls,
    the second with something other than [None]: the first setup, the
    first write and the first retrieve each obtain the connection, send
    the empty document and the mapping request, and store the answer in
    [mapping_requested]; after any of them a setup changes nothing and
    calls nothing, so setup twice is setup once.  In general a setup
    with both fields set is a no-op, and the first write and the first
    retrieve on a manager as constructed start with the connection and
    the empty document whatever the backend answers. *)
Theorem setup_lazy_and_idempotent
    (e : Env) (c : Awaitable) (cl : AsyncElasticsearch) (idx : string)
    (r1 r2 : Json) :
  manager e = ES.__init__ c idx ->
  yields c cl ->
  respond cl (es_calls e) (Index idx (JObj []) None) = inr r1 ->
  respond cl (es_calls e ++ [Index idx (JObj []) None])
    (Index idx ES.mapping (Some "_mapping")) = inr r2 ->
  r2 <> JNull ->
  let first := [Index idx (JObj []) None;
                Index idx ES.mapping (Some "_mapping")] in
  let e1 := env_of (ES.setup e) in
  (forall c0 idx0,
      es (ES.__init__ c0 idx0) = None
      /\ mapping_requested (ES.__init__ c0 idx0) = JNull)
  /\ (result (ES.setup e) = inr tt
      /\ es (manager e1) = Some cl
      /\ mapping_requested (manager e1) = r2
      /\ es_calls e1 = es_calls e ++ first)
  /\ (forall data,
        let o := ES._store data e in
        es (manager (env_of o)) = Some cl
        /\ mapping_requested (manager (env_of o)) = r2
        /\ es_calls (env_of o)
           = es_calls e ++ first
             ++ [Index idx (ES.metric_doc data (datetime_now e)) None]
        /\ ES.setup (env_of o) = mkOut (env_of o) [] (inr tt))
  /\ (forall interval,
        let o := ES.retrieve interval e in
        es (manager (env_of o)) = Some cl
        /\ mapping_requested (manager (env_of o)) = r2
        /\ es_calls (env_of o)
           = es_calls e ++ first
             ++ [Search idx (ES.search_body (ES.normalize interval))]
        /\ ES.setup (env_of o) = mkOut (env_of o) [] (inr tt))
  /\ ES.setup e1 = mkOut e1 [] (inr tt)
  /\ (ES.setup ;;; ES.setup) e = ES.setup e
  /\ (forall e0 cl0,
        es (manager e0) = Some cl0 ->
        mapping_requested (manager e0) <> JNull ->
        ES.setup e0 = mkOut e0 [] (inr tt))
  /\ (forall e0 c0 cl0 idx0 data,
        manager e0 = ES.__init__ c0 idx0 -> yields c0 cl0 ->
        es (manager (env_of (ES._store data e0))) = Some cl0
        /\ exists rest,
             es_calls (env_of (ES._store data e0))
             = es_calls e0 ++ Index idx0 (JObj []) None :: rest)
  /\ (forall e0 c0 cl0 idx0 interval,
        manager e0 = ES.__init__ c0 idx0 -> yields c0 cl0 ->
        es (manager (env_of (ES.retrieve interval e0))) = Some cl0
        /\ exists rest,
             es_calls (env_of (ES.retrieve interval e0))
             = es_calls e0 ++ Index idx0 (JObj []) None :: rest).
Proof.
  intros Hm Hy H1 H2 Hr2. cbv zeta.
  pose proof (setup_first_use e c cl idx r1 r2 Hm Hy H1 H2) as Hs.
  set (E1 := set_es_calls _ _) in Hs.
  assert (Hres : result (ES.setup e) = inr tt) by now rewrite Hs.
  assert (Hnoop : forall e0 cl0,
            es (manager e0) = Some cl0 ->
            mapping_requested (manager e0) <> JNull ->
            ES.setup e0 = mkOut e0 [] (inr tt)).
  { intros e0 cl0 He0 Hm0. apply (setup_initialized e0 cl0 He0).
    now apply is_none_false. }
  assert (HE1 : ES.setup E1 = mkOut E1 [] (inr tt))
    by (apply (Hnoop E1 cl); [reflexivity | exact Hr2]).
  split; [intros; split; reflexivity|].
  split; [rewrite Hs; repeat split|].
  split.
  { intros data. rewrite store_unfold, (after_setup_ok _ e Hres), Hs.
    simpl env_of.
    destruct (after_setup_store_run data E1 cl eq_refl)
      as (Hc & Hmg & _ & _).
    cbv zeta in Hc. rewrite Hmg, Hc.
    repeat split.
    - unfold E1. simpl. now rewrite <- app_assoc.
    - apply (Hnoop _ cl); [now rewrite Hmg | now rewrite Hmg]. }
  split.
  { intros interval.
    rewrite retrieve_unfold, (after_setup_ok _ e Hres), Hs. simpl env_of.
    destruct (after_setup_calls (ES.normalize interval) E1 cl eq_refl)
      as (Hc & _).
    destruct (after_setup_spec (ES.normalize interval) E1) as (_ & Hmg & _).
    rewrite Hmg, Hc.
    repeat split.
    - unfold E1. simpl. now rewrite <- app_assoc.
    - apply (Hnoop _ cl); [now rewrite Hmg | now rewrite Hmg]. }
  split; [rewrite Hs; exact HE1|].
  split.
  { rewrite (after_setup_ok ES.setup e Hres), Hs. simpl env_of.
    exact HE1. }
  split; [exact Hnoop|].
  split.
  - intros e0 c0 cl0 idx0 data. apply first_store_initializes.
  - intros e0 c0 cl0 idx0 interval. apply first_retrieve_initializes.
Qed.

Lemma setup_lazy_and_idempotent_witness :
  let e1 := env_of (ES.setup Tests.env0) in
  mapping_requested (manager e1) = JObj [("result", JStr "created")]
  /\ es_calls e1
     = [Index "quepid_es_proxy.metrics" (JObj []) None;
        Index "quepid_es_proxy.metrics" ES.mapping (Some "_mapping")]
  /\ es_calls (env_of (ES.setup e1)) = es_calls e1.
Proof.
  cbv zeta.
  destruct (setup_lazy_and_idempotent Tests.env0
              (Future_ (inr Tests.mock_client)) Tests.mock_client
              ES.default_index (JObj [("result", JStr "created")])
              (JObj [("result", JStr "created")])
              eq_refl eq_refl eq_refl eq_refl ltac:(discriminate))
    as (_ & (_ & _ & Hmr & Hc) & _ & _ & Hnoop & _).
  split; [exact Hmr|]. split; [exact Hc|].
  now rewrite Hnoop.
Defined.

(** C10. On first use, when initialization goes through, the manager has
    sent exactly two calls, an empty document to the metrics index and
    then the mapping: the index has received one document more, and that
    document has no [endpoint], [wall_ms] or [timestamp] field.  The first
    store and the first retrieve both start with these calls. *)
Theorem first_use_indexes_empty_document
    (e : Env) (c : Awaitable) (idx : string) :
  manager e = ES.__init__ c idx ->
  result (ES.setup e) = inr tt ->
  let e' := env_of (ES.setup e) in
  es_calls e'
  = es_calls e ++ [Index idx (JObj []) None;
                   Index idx ES.mapping (Some "_mapping")]
  /\ documents idx (es_calls e') = documents idx (es_calls e) ++ [JObj []]
  /\ has_field "endpoint" (JObj []) = false
  /\ has_field "wall_ms" (JObj []) = false
  /\ has_field "timestamp" (JObj []) = false
  /\ (forall data, exists rest,
        es_calls (env_of (ES._store data e)) = es_calls e' ++ rest)
  /\ (forall interval, exists rest,
        es_calls (env_of (ES.retrieve interval e)) = es_calls e' ++ rest).
Proof.
  intros Hm Hr. cbv zeta.
  destruct (setup_success e Hr) as (Hc & _ & _ & _ & _ & _ & _).
  rewrite Hm in Hc. unfold init_calls in Hc. simpl in Hc.
  split; [exact Hc|].
  split.
  { rewrite Hc, documents_app. simpl. now rewrite String.eqb_refl. }
  repeat (split; [reflexivity|]).
  split.
  - intros data. rewrite store_unfold, (after_setup_ok _ e Hr).
    apply store_after_setup.
  - intros interval. rewrite retrieve_unfold, (after_setup_ok _ e Hr).
    apply after_setup_spec.
Qed.

Lemma first_use_indexes_empty_document_witness :
  let e' := env_of (ES.setup Tests.env0) in
  es_calls e'
  = [Index "quepid_es_proxy.metrics" (JObj []) None;
     Index "quepid_es_proxy.metrics" ES.mapping (Some "_mapping")]
  /\ documents "quepid_es_proxy.metrics" (es_calls e') = [JObj []].
Proof.
  cbv zeta.
  destruct (first_use_indexes_empty_document Tests.env0
              (Future_ (inr Tests.mock_client)) ES.default_index
              eq_refl eq_refl) as (H1 & H2 & _).
  split; [exact H1 | exact H2].
Defined.

Lemma store_frame (data : BenchmarkRecord) (e : Env) :
  finished (env_of (ES._store data e)) = finished e
  /\ tasks (env_of (ES._store data e)) = tasks e
  /\ measured (ES._store data e) = [].
Proof.
  destruct e as [t d [c idx [cl|] mr] calls tk fin]; run_es;
    try (destruct (await c) as [c' [x|cl]]; simpl; [auto|]);
    destruct (is_none mr); simpl;
    repeat match goal with
           | |- context [respond ?a ?b ?c] =>
               destruct (respond a b c); simpl
           end; auto.
Qed.

(** C8. The persistence scheduled for a record, once the event loop runs
    it and initialization goes through, sends after the initialization
    calls exactly one more call: a document for the metrics index whose
    [endpoint] and [wall_ms] are the record's name and duration and whose
    [timestamp] is the clock's reading when the task runs, whatever it
    was when the store operation was invoked.  It is the only document
    sent that has an [endpoint] field. *)
Theorem store_writes_one_document
    (data : BenchmarkRecord) (e0 : Env) (later : string) :
  tasks e0 = [] ->
  result (ES.setup (set_datetime later e0)) = inr tt ->
  let e := set_datetime later (fst (ES.store data e0)) in
  let e' := run_next_task e in
  let idx := index (manager e0) in
  let doc := JObj [("endpoint", JStr (name data));
                   ("wall_ms", JNum (wall_ms data));
                   ("timestamp", JStr later)] in
  es_calls e' = es_calls e0 ++ init_calls (manager e0) ++ [Index idx doc None]
  /\ filter (has_field "endpoint")
       (documents idx (init_calls (manager e0) ++ [Index idx doc None]))
     = [doc]
  /\ tasks e' = [].
Proof.
  intros Ht Hs. cbv zeta.
  assert (Hq : tasks (set_datetime later (fst (ES.store data e0)))
               = [Store_coro data]) by (simpl; now rewrite Ht).
  assert (Henv : set_tasks [] (set_datetime later (fst (ES.store data e0)))
                 = set_datetime later e0).
  { unfold set_tasks, set_datetime, ES.store, create_task. simpl.
    now rewrite Ht. }
  unfold run_next_task. rewrite Hq, Henv. unfold run_coro.
  split; [|split].
  - rewrite store_unfold, (after_setup_ok _ _ Hs).
    destruct (setup_success _ Hs) as (Hc & Hi & (cl & He) & Hd & _).
    cbv zeta in Hc, Hi, He, Hd. simpl in Hc, Hi, Hd.
    revert Hc Hi He Hd.
    generalize (env_of (ES.setup (set_datetime later e0))).
    intros e1 Hc Hi He Hd.
    unfold after_setup_store. run_es. rewrite He. simpl.
    rewrite Hc, Hi, Hd, <- app_assoc.
    destruct (respond cl _ _); reflexivity.
  - rewrite documents_app. unfold init_calls.
    destruct (is_none (mapping_requested (manager e0))); simpl;
      rewrite !String.eqb_refl; reflexivity.
  - destruct (store_frame data (set_datetime later e0)) as (_ & Htk & _).
    destruct (ES._store data (set_datetime later e0)) as [e1 m1 r].
    simpl in *. now rewrite Htk.
Qed.

Lemma store_writes_one_document_witness :
  let data := {| name := "test-endpoint"; wall_ms := 42 |} in
  let e := set_datetime "2021-03-01T10:00:07"
             (fst (ES.store data Tests.env0)) in
  es_calls (run_next_task e)
  = [Index "quepid_es_proxy.metrics" (JObj []) None;
     Index "quepid_es_proxy.metrics" ES.mapping (Some "_mapping");
     Index "quepid_es_proxy.metrics"
       (JObj [("endpoint", JStr "test-endpoint"); ("wall_ms", JNum 42);
              ("timestamp", JStr "2021-03-01T10:00:07")]) None].
Proof.
  cbv zeta.
  exact (proj1 (store_writes_one_document
                  {| name := "test-endpoint"; wall_ms := 42 |} Tests.env0
                  "2021-03-01T10:00:07" eq_refl eq_refl)).
Defined.

(** C9. The store operation only queues the write and returns: no call
    reaches the backend and the manager is untouched when it returns.
    A request handled by the middleware of an Elasticsearch-backed
    application therefore ends with the downstream handler's outcome,
    with no call made to the backend on its path, whatever the backend
    would answer.  When the event loop later runs the write, its outcome,
    an exception included, is kept with the finished task. *)
Theorem store_is_fire_and_forget :
  (forall data e,
      ES.store data e = (set_tasks (tasks e ++ [Store_coro data]) e, inr tt))
  /\ (forall app measure_routes request call_next e,
      let o := timing_middleware app ES_manager measure_routes request
                 call_next e in
      let down := call_next request e in
      result o = snd down
      /\ es_calls (env_of o) = es_calls (fst down)
      /\ manager (env_of o) = manager (fst down)
      /\ finished (env_of o) = finished (fst down)
      /\ tasks (env_of o) = tasks (fst down) ++ map Store_coro (measured o))
  /\ (forall data rest e,
      tasks e = Store_coro data :: rest ->
      let o := ES._store data (set_tasks rest e) in
      tasks (run_next_task e) = rest
      /\ finished (run_next_task e) = finished e ++ [result o]).
Proof.
  split; [reflexivity|]. split.
  - intros app0 mr request call_next e. cbv zeta. unfold timing_middleware.
    set (self := metrics_handler app0 ES_manager mr).
    destruct (get_route_name_total self request) as (route & Hr).
    destruct (Handler.is_route_measurable self route) eqn:Hm.
    + rewrite (call_measured self request call_next e route Hr Hm).
      simpl. repeat split.
    + rewrite (call_unmeasured self request call_next e route Hr Hm).
      simpl. repeat split. now rewrite app_nil_r.
  - intros data rest e Ht. cbv zeta. unfold run_next_task. rewrite Ht.
    unfold run_coro.
    destruct (store_frame data (set_tasks rest e)) as (Hf & Htk & _).
    destruct (ES._store data (set_tasks rest e)) as [e1 m1 r].
    simpl in *. rewrite Hf, Htk. split; reflexivity.
Qed.


(** A measured request against a backend that rejects every call: the
    response is the handler's, and the failure shows only in the outcome
    of the task, once the loop has run it. *)
Example broken_backend_request_unaffected :
  let e := set_manager
             (ES.__init__ (Future_ (inr Tests.broken_client))
                ES.default_index) Tests.env0 in
  let o := timing_middleware Tests.app ES_manager Tests.measure_routes
             (Tests.get ["measured-simple"]) Tests.ok_handler e in
  result o = inr {| status_code := 200; content := JNull |}
  /\ es_calls (env_of o) = []
  /\ finished (run_next_task (env_of o)) = [inl (Fault "ConnectionError")].
Proof. repeat split. Qed.

(** ** Intervals *)

Lemma normalize_supported (i : option string) :
  In (ES.normalize i) ES.supported.
Proof.
  destruct i as [s|]; unfold ES.normalize; [|simpl; auto].
  destruct (existsb (String.eqb s) ES.supported) eqn:Hex; [|simpl; auto].
  apply existsb_exists in Hex. destruct Hex as (x & Hin & Heq).
  apply String.eqb_eq in Heq. now subst x.
Qed.



(** [test_es_manager_retrieve]: no interval given, one bucket. *)
Example test_es_manager_retrieve :
  result (ES.retrieve None Tests.env0)
  = inr [{| average_response_time := JNum 21;
            endpoint := JStr "test-endpoint";
            interval := "24h";
            requests_count := JNum 777 |}].
Proof. reflexivity. Qed.

(** ** Path variables *)

(** Paths with a newline: a literal route also takes its path followed
    by a newline, and the mount does not take a path with a newline
    inside, which then goes to a later route. *)
Example newline_after_literal :
  Handler.get_route_name Main.handler
    {| method := "GET"; path := [("healthcheck" ++ newline)%string] |}
  = inr "quepid_es_proxy.main.root"
  /\ Handler.get_route_name Tests.handler
       (Tests.get [("measured-simple" ++ newline)%string])
     = inr "units.test_metrics.simple_route".
Proof. split; reflexivity. Qed.

Example newline_inside_mount_path :
  Handler.get_route_name Main.handler
    {| method := "POST";
       path := ["metrics"; "_doc"; ("a" ++ newline ++ "b")%string;
                "_explain"] |}
  = inr "quepid_es_proxy.main.explain"
  /\ tail_matches [("a" ++ newline)%string] = true
  /\ tail_matches [("a" ++ newline ++ newline)%string] = false
  /\ tail_matches [newline] = true
  /\ tail_matches [("a" ++ newline)%string; "b"] = false
  /\ tail_matches [] = false.
Proof. repeat split. Qed.







(** * Further properties *)

(** ** The middleware *)

(** X1. When the completion callback raises on the record of a measured
    request, the middleware raises that exception, whether the downstream
    handler returned a response or raised itself; the callback was invoked
    once. *)
Theorem raising_callback_replaces_outcome
    (self : RequestMetricsHandler) (request : Request)
    (call_next : Request -> Ext Response) (e : Env) (route : string)
    (y : Exn) :
  Handler.get_route_name self request = inr route ->
  Handler.is_route_measurable self route = true ->
  snd (request_measured self (record_of request call_next e route)
         (fst (call_next request e))) = inl y ->
  let o := Handler.__call__ self request call_next e in
  result o = inl y /\ measured o = [record_of request call_next e route].
Proof.
  intros Hr Hm Hy. cbv zeta.
  rewrite (call_measured self request call_next e route Hr Hm).
  cbv zeta. simpl. now rewrite Hy.
Qed.

Lemma raising_callback_replaces_outcome_witness :
  let self := {| app := Tests.app; measure_routes := Tests.measure_routes;
                 request_measured := failing_store |} in
  snd (Tests.ok_handler (Tests.get ["measured-simple"]) Tests.env0)
  = inr {| status_code := 200; content := JNull |}
  /\ result (Handler.__call__ self (Tests.get ["measured-simple"])
               Tests.ok_handler Tests.env0)
     = inl (Fault "store failed").
Proof.
  cbv zeta. split; [reflexivity|].
  exact (proj1 (raising_callback_replaces_outcome
                  {| app := Tests.app; measure_routes := Tests.measure_routes;
                     request_measured := failing_store |}
                  (Tests.get ["measured-simple"]) Tests.ok_handler Tests.env0
                  "units.test_metrics.simple_route" (Fault "store failed")
                  eq_refl eq_refl eq_refl)).
Defined.

(** X2. The middleware never makes up an outcome of its own: what it
    returns or raises is what the downstream handler returned or raised,
    unless the completion callback raised, and then it is the callback's
    exception. *)
Theorem middleware_outcome_is_downstream_or_callback
    (self : RequestMetricsHandler) (request : Request)
    (call_next : Request -> Ext Response) (e : Env) :
  let o := Handler.__call__ self request call_next e in
  let down := call_next request e in
  result o = snd down
  \/ exists record y,
       measured o = [record]
       /\ snd (request_measured self record (fst down)) = inl y
       /\ result o = inl y.
Proof.
  cbv zeta.
  destruct (get_route_name_total self request) as (route & Hr).
  destruct (Handler.is_route_measurable self route) eqn:Hm.
  - rewrite (call_measured self request call_next e route Hr Hm).
    cbv zeta. simpl.
    destruct (snd (request_measured self
                     (record_of request call_next e route)
                     (fst (call_next request e)))) as [y|u] eqn:Hcb.
    + right. exists (record_of request call_next e route), y. auto.
    + now left.
  - rewrite (call_unmeasured self request call_next e route Hr Hm).
    now left.
Qed.

Lemma measurable_iff (self : RequestMetricsHandler) (n : string) :
  Handler.is_route_measurable self n = true <-> In n (measure_routes self).
Proof.
  unfold Handler.is_route_measurable. rewrite existsb_exists. split.
  - intros (x & Hin & Heq). apply String.eqb_eq in Heq. now subst.
  - intros Hin. exists n. split; [assumption | apply String.eqb_refl].
Qed.

(** X3. Only membership in [measure_routes] counts: two handlers over the
    same application and callback whose lists have the same elements, in
    any order and with any repetition, treat every request alike. *)
Theorem measure_routes_order_is_irrelevant
    (a : FastAPI) (cb : RequestMeasured) (l1 l2 : list string)
    (request : Request) (call_next : Request -> Ext Response) (e : Env) :
  (forall n, In n l1 <-> In n l2) ->
  Handler.__call__
    {| app := a; measure_routes := l1; request_measured := cb |}
    request call_next e
  = Handler.__call__
      {| app := a; measure_routes := l2; request_measured := cb |}
      request call_next e.
Proof.
  intros Hsame.
  set (h1 := {| app := a; measure_routes := l1; request_measured := cb |}).
  set (h2 := {| app := a; measure_routes := l2; request_measured := cb |}).
  assert (Hm : forall n, Handler.is_route_measurable h1 n
                         = Handler.is_route_measurable h2 n).
  { intros n.
    destruct (Handler.is_route_measurable h1 n) eqn:H1,
             (Handler.is_route_measurable h2 n) eqn:H2; try reflexivity.
    - apply measurable_iff in H1. apply Hsame in H1.
      apply (measurable_iff h2) in H1. congruence.
    - apply measurable_iff in H2. apply Hsame in H2.
      apply (measurable_iff h1) in H2. congruence. }
  unfold Handler.__call__, Handler.get_route_handler.
  change (Handler.get_route_name h2 request)
    with (Handler.get_route_name h1 request).
  destruct (Handler.get_route_name h1 request) as [x|n]; [reflexivity|].
  now rewrite Hm.
Qed.

Lemma measure_routes_order_is_irrelevant_witness :
  Handler.__call__
    {| app := Tests.app; measure_routes := Tests.measure_routes;
       request_measured := failing_store |}
    (Tests.get ["measured-simple"]) Tests.ok_handler Tests.env0
  = Handler.__call__
      {| app := Tests.app;
         measure_routes := ["units.test_metrics.simple_route";
                            "units.test_metrics.dymic_route";
                            "units.test_metrics.simple_route"];
         request_measured := failing_store |}
      (Tests.get ["measured-simple"]) Tests.ok_handler Tests.env0.
Proof.
  apply (measure_routes_order_is_irrelevant Tests.app failing_store).
  intros n. simpl. tauto.
Defined.

Lemma first_full_snoc (rs : list BaseRoute) (r : BaseRoute)
    (request : Request) :
  Handler.first_full (rs ++ [r]) request
  = match Handler.first_full rs request with
    | Some r0 => Some r0
    | None => if is_full (matches r request) then Some r else None
    end.
Proof.
  induction rs as [|r1 rs IH]; simpl; [reflexivity|].
  destruct (is_full (matches r1 request)); [reflexivity | exact IH].
Qed.

(** X4. The handler reads the live application, so routes registered
    after it was built take part in resolution; but a route registered
    later never changes the route, nor the identifier, of a request an
    earlier route fully matches: it is only consulted when none does. *)
Theorem later_route_is_consulted_last
    (self : RequestMetricsHandler) (r : BaseRoute) (request : Request) :
  let self' := with_app (add_route r (app self)) self in
  Handler.get_matching_route self' request
  = match Handler.get_matching_route self request with
    | Some r0 => Some r0
    | None => if is_full (matches r request) then Some r else None
    end
  /\ (forall r0, Handler.get_matching_route self request = Some r0 ->
        Handler.get_route_name self' request
        = Handler.get_route_name self request).
Proof.
  cbv zeta.
  assert (H : Handler.get_matching_route
                (with_app (add_route r (app self)) self) request
              = match Handler.get_matching_route self request with
                | Some r0 => Some r0
                | None => if is_full (matches r request) then Some r else None
                end).
  { unfold Handler.get_matching_route. simpl. apply first_full_snoc. }
  split; [exact H|].
  intros r0 H0. unfold Handler.get_route_name. rewrite H, H0. reflexivity.
Qed.

(** X5. In an application wired as main.py and the tests wire theirs,
    the metrics mount coming right after the routes of [FastAPI()], a
    request whose path is [/metrics/] followed by anything the mount
    takes (no newline other than one that ends the path), by any method
    and whatever is registered later, resolves to the empty identifier:
    reading the metrics is not itself measured unless the empty
    identifier is listed. *)
Theorem metrics_endpoint_is_not_measured
    (later : list BaseRoute) (measure_routes : list string)
    (cb : RequestMeasured) (m : string) (rest : list string)
    (call_next : Request -> Ext Response) (e : Env) :
  tail_matches rest = true ->
  ~ In "" measure_routes ->
  let a := {| routes := routes (mount_metrics {| routes := fastapi_routes |})
                        ++ later |} in
  let self := {| app := a; measure_routes := measure_routes;
                 request_measured := cb |} in
  let request := {| method := m; path := "metrics" :: rest |} in
  Handler.get_route_name self request = inr ""
  /\ measured (Handler.__call__ self request call_next e) = [].
Proof.
  intros Hrest Hno. cbv zeta.
  set (self := {| app := _; measure_routes := measure_routes;
                  request_measured := cb |}).
  set (request := {| method := m; path := "metrics" :: rest |}).
  assert (Hname : Handler.get_route_name self request = inr "").
  { destruct rest as [|s rest']; [discriminate|].
    unfold Handler.get_route_name, Handler.get_matching_route.
    simpl in Hrest. simpl. rewrite Hrest. reflexivity. }
  split; [exact Hname|].
  assert (Hm : Handler.is_route_measurable self "" = false).
  { destruct (Handler.is_route_measurable self "") eqn:H; [|reflexivity].
    apply measurable_iff in H. contradiction. }
  now rewrite (call_unmeasured self request call_next e "" Hname Hm).
Qed.

Lemma metrics_endpoint_is_not_measured_witness :
  measured (Handler.__call__ Main.handler
              {| method := "GET"; path := ["metrics"; ""] |}
              Tests.ok_handler Tests.env0) = [].
Proof.
  refine (proj2 (metrics_endpoint_is_not_measured
                   [Route [Lit "healthcheck"] ["GET"] "quepid_es_proxy.main"
                      "root";
                    Route Main.index_route ["POST"] "quepid_es_proxy.main"
                      "search_proxy";
                    Route Main.index_route ["GET"] "quepid_es_proxy.main"
                      "explain_missing_documents";
                    Route [Param "index_name"; Lit "_doc"; Param "doc_id";
                           Lit "_explain"] ["POST"] "quepid_es_proxy.main"
                      "explain"]
                   Main.measure_routes (manager_store ES_manager) "GET" [""]
                   Tests.ok_handler Tests.env0 _ _)).
  - reflexivity.
  - simpl. intros [H|[H|[H|[]]]]; discriminate.
Defined.

(** X6. With a [BaseMetricsManager] the middleware is transparent for
    every request, measured or not: outcome and environment are those of
    the downstream handler; and its [retrieve] answers [None] for any
    interval without touching anything. *)
Theorem base_manager_is_transparent
    (a : FastAPI) (measure_routes : list string) (request : Request)
    (call_next : Request -> Ext Response) (e : Env) :
  let o := timing_middleware a Base_manager measure_routes request
             call_next e in
  env_of o = fst (call_next request e)
  /\ result o = snd (call_next request e)
  /\ forall query, get_metrics Base_manager query e = mkOut e [] (inr None).
Proof.
  cbv zeta. unfold timing_middleware.
  set (self := metrics_handler a Base_manager measure_routes).
  destruct (get_route_name_total self request) as (route & Hr).
  destruct (Handler.is_route_measurable self route) eqn:Hm.
  - rewrite (call_measured self request call_next e route Hr Hm).
    repeat split.
  - rewrite (call_unmeasured self request call_next e route Hr Hm).
    repeat split.
Qed.

(** ** The Elasticsearch manager *)

Lemma setup_keeps_connection (e : Env) (cl : AsyncElasticsearch) :
  es (manager e) = Some cl ->
  es (manager (env_of (ES.setup e))) = Some cl
  /\ index (manager (env_of (ES.setup e))) = index (manager e)
  /\ client (manager (env_of (ES.setup e))) = client (manager e).
Proof.
  destruct e as [t d [c idx [cl'|] mr] calls tk fin]; simpl;
    [|discriminate]. intros [= ->]. run_es.
  destruct (is_none mr); simpl; [|auto].
  destruct (respond cl calls _) as [x|r1]; simpl; [auto|].
  destruct (respond cl _ _) as [x|r2]; simpl; auto.
Qed.

Lemma after_setup_result {B} (k : M B) (e : Env) (v : B) :
  result ((ES.setup ;;; k) e) = inr v -> result (ES.setup e) = inr tt.
Proof.
  unfold bind. destruct (ES.setup e) as [e1 m1 [x|[]]]; simpl;
    [discriminate | reflexivity].
Qed.

(** X7. Initialization happens once: after a store that went through
    and got an answer to its mapping request, the next store sends one
    call only, its document, and leaves the manager as it was. *)
Theorem second_store_does_not_reinitialize
    (d1 d2 : BenchmarkRecord) (e : Env) :
  result (ES._store d1 e) = inr tt ->
  mapping_requested (manager (env_of (ES._store d1 e))) <> JNull ->
  let e1 := env_of (ES._store d1 e) in
  let o := ES._store d2 e1 in
  es_calls (env_of o)
  = es_calls e1 ++ [Index (index (manager e))
                      (ES.metric_doc d2 (datetime_now e1)) None]
  /\ manager (env_of o) = manager e1.
Proof.
  intros Hr Hm. cbv zeta.
  pose proof (after_setup_result _ _ _ Hr) as Hs.
  destruct (setup_success e Hs) as (_ & Hi & (cl & He) & _).
  cbv zeta in Hi, He.
  revert Hr Hm. rewrite (store_unfold d1), (after_setup_ok _ e Hs).
  destruct (after_setup_store_run d1 (env_of (ES.setup e)) cl He)
    as (_ & Hmg & _ & _).
  generalize dependent (env_of (after_setup_store d1 (env_of (ES.setup e)))).
  intros e1 Hmg _ Hm.
  assert (He1 : es (manager e1) = Some cl) by now rewrite Hmg.
  assert (Hi1 : index (manager e1) = index (manager e)) by now rewrite Hmg.
  rewrite store_unfold.
  assert (Hs1 : ES.setup e1 = mkOut e1 [] (inr tt)).
  { apply (setup_initialized e1 cl He1). apply is_none_false.
    now rewrite Hmg in Hm |- *. }
  assert (Hr1 : result (ES.setup e1) = inr tt) by now rewrite Hs1.
  rewrite (after_setup_ok _ e1 Hr1), Hs1. simpl env_of.
  destruct (after_setup_store_run d2 e1 cl He1) as (Hc & Hmg' & _ & _).
  rewrite Hc, Hi1. auto.
Qed.

Lemma second_store_does_not_reinitialize_witness :
  let d := {| name := "test-endpoint"; wall_ms := 42 |} in
  let e1 := env_of (ES._store d Tests.env0) in
  length (es_calls e1) = 3%nat
  /\ length (es_calls (env_of (ES._store d e1))) = 4%nat.
Proof.
  cbv zeta. split; [reflexivity|].
  rewrite (proj1 (second_store_does_not_reinitialize
                    {| name := "test-endpoint"; wall_ms := 42 |}
                    {| name := "test-endpoint"; wall_ms := 42 |}
                    Tests.env0 eq_refl
                    ltac:(simpl; discriminate))).
  reflexivity.
Defined.

(** X8. When the mapping request is rejected, [setup] raises after the
    empty document has been sent and leaves the manager as it was, with
    [mapping_requested] still [None].  The next setup therefore starts
    over: it sends the empty document again and, when the backend takes
    it, the mapping request again, so the index has received an empty
    document for each of the two attempts. *)
Theorem rejected_mapping_is_retried
    (e : Env) (cl : AsyncElasticsearch) (r1 r1' : Json) (x : Exn) :
  es (manager e) = Some cl ->
  mapping_requested (manager e) = JNull ->
  let idx := index (manager e) in
  let c1 := Index idx (JObj []) None in
  let c2 := Index idx ES.mapping (Some "_mapping") in
  respond cl (es_calls e) c1 = inr r1 ->
  respond cl (es_calls e ++ [c1]) c2 = inl x ->
  respond cl (es_calls e ++ [c1; c2]) c1 = inr r1' ->
  let o := ES.setup e in
  let o' := ES.setup (env_of o) in
  result o = inl x
  /\ manager (env_of o) = manager e
  /\ es_calls (env_of o) = es_calls e ++ [c1; c2]
  /\ documents idx (es_calls (env_of o))
     = documents idx (es_calls e) ++ [JObj []]
  /\ es_calls (env_of o') = es_calls e ++ [c1; c2; c1; c2]
  /\ documents idx (es_calls (env_of o'))
     = documents idx (es_calls e) ++ [JObj []; JObj []]
  /\ result o'
     = match respond cl (es_calls e ++ [c1; c2; c1]) c2 with
       | inl y => inl y
       | inr _ => inr tt
       end.
Proof.
  destruct e as [t d [c idx [cl'|] mr] calls tk fin]; simpl;
    [|discriminate]. intros [= ->] -> H1 H2 H3.
  assert (Hs : ES.setup
                 {| time_now := t; datetime_now := d;
                    manager := {| client := c; index := idx; es := Some cl;
                                  mapping_requested := JNull |};
                    es_calls := calls; tasks := tk; finished := fin |}
               = mkOut
                   {| time_now := t; datetime_now := d;
                      manager := {| client := c; index := idx; es := Some cl;
                                    mapping_requested := JNull |};
                      es_calls := calls ++ [Index idx (JObj []) None;
                                            Index idx ES.mapping
                                              (Some "_mapping")];
                      tasks := tk; finished := fin |}
                   [] (inl x)).
  { run_es. rewrite H1. simpl. rewrite H2. simpl.
    now rewrite <- app_assoc. }
  rewrite Hs. simpl env_of. simpl result.
  split; [reflexivity|]. split; [reflexivity|]. split; [reflexivity|].
  split.
  { simpl. rewrite documents_app. simpl. now rewrite String.eqb_refl. }
  run_es. rewrite H3. simpl.
  replace ((calls ++ [Index idx (JObj []) None;
                      Index idx ES.mapping (Some "_mapping")])
           ++ [Index idx (JObj []) None])
    with (calls ++ [Index idx (JObj []) None;
                    Index idx ES.mapping (Some "_mapping");
                    Index idx (JObj []) None])
    by now rewrite <- app_assoc.
  match goal with
  | |- context [respond cl ?h ?k] => destruct (respond cl h k) as [y|r2]
  end; simpl; rewrite <- !app_assoc; simpl;
    (split; [reflexivity|]);
    (split; [|reflexivity]);
    rewrite documents_app; simpl; now rewrite String.eqb_refl.
Qed.

Lemma rejected_mapping_is_retried_witness :
  let e := set_manager
             {| client := Future_ (inr no_mapping_client);
                index := ES.default_index;
                es := Some no_mapping_client; mapping_requested := JNull |}
             Tests.env0 in
  result (ES.setup e) = inl (Fault "mapping rejected")
  /\ documents ES.default_index
       (es_calls (env_of (ES.setup (env_of (ES.setup e)))))
     = [JObj []; JObj []].
Proof.
  cbv zeta.
  destruct (rejected_mapping_is_retried
              (set_manager
                 {| client := Future_ (inr no_mapping_client);
                    index := ES.default_index;
                    es := Some no_mapping_client;
                    mapping_requested := JNull |} Tests.env0)
              no_mapping_client (JObj [("result", JStr "created")])
              (JObj [("result", JStr "created")])
              (Fault "mapping rejected") eq_refl eq_refl eq_refl eq_refl
              eq_refl)
    as (H1 & _ & _ & _ & _ & H6 & _).
  split; [exact H1 | exact H6].
Defined.

Lemma setup_connection_failure (e : Env) (c : Awaitable) (x : Exn)
    (idx : string) :
  manager e = ES.__init__ c idx ->
  snd (await c) = inl x ->
  ES.setup e
  = mkOut (set_manager (ES.__init__ (fst (await c)) idx) e) [] (inl x).
Proof.
  destruct e as [t d m calls tk fin]. simpl. intros -> Ha. run_es.
  rewrite Ha. reflexivity.
Qed.

(** X9. When awaiting the client fails, a manager without a connection
    raises that exception from [setup], from the write and from
    [retrieve], calls nothing and stays without a connection.  The
    failure is final: with a future every later use raises the same
    exception, and with a coroutine object, which cannot be awaited
    again, every later use raises [RuntimeError]; none reaches the
    backend. *)
Theorem connection_failure_is_raised_on_every_use
    (e : Env) (c : Awaitable) (x : Exn) (idx : string)
    (data : BenchmarkRecord) (interval : option string) :
  manager e = ES.__init__ c idx ->
  snd (await c) = inl x ->
  let e1 := set_manager (ES.__init__ (fst (await c)) idx) e in
  let again :=
    match c with
    | Future_ _ => x
    | Coro _ _ => RuntimeError "cannot reuse already awaited coroutine"
    end in
  (ES.setup e = mkOut e1 [] (inl x)
   /\ ES._store data e = mkOut e1 [] (inl x)
   /\ ES.retrieve interval e = mkOut e1 [] (inl x))
  /\ (es (manager e1) = None /\ es_calls e1 = es_calls e)
  /\ (ES.setup e1 = mkOut e1 [] (inl again)
      /\ ES._store data e1 = mkOut e1 [] (inl again)
      /\ ES.retrieve interval e1 = mkOut e1 [] (inl again)).
Proof.
  intros Hm Ha. cbv zeta.
  pose proof (setup_connection_failure e c x idx Hm Ha) as Hs.
  set (e1 := set_manager (ES.__init__ (fst (await c)) idx) e) in *.
  set (again := match c with
                | Future_ _ => x
                | Coro _ _ =>
                    RuntimeError "cannot reuse already awaited coroutine"
                end).
  assert (Hs1 : ES.setup e1 = mkOut e1 [] (inl again)).
  { rewrite (setup_connection_failure e1 (fst (await c)) again idx eq_refl).
    - unfold e1. destruct c as [r|r [|]]; reflexivity.
    - unfold again. destruct c as [r|r [|]]; simpl in *;
        [exact Ha | reflexivity | reflexivity]. }
  repeat split; try assumption;
    rewrite ?store_unfold, ?retrieve_unfold; unfold bind;
    rewrite ?Hs, ?Hs1; reflexivity.
Qed.

Lemma connection_failure_is_raised_on_every_use_witness :
  let e := set_manager
             (ES.__init__ (Coro (inl (Fault "no route to host")) false)
                ES.default_index) Tests.env0 in
  result (ES.retrieve (Some "1h") e) = inl (Fault "no route to host")
  /\ result (ES.retrieve (Some "1h") (env_of (ES.retrieve (Some "1h") e)))
     = inl (RuntimeError "cannot reuse already awaited coroutine").
Proof.
  cbv zeta.
  destruct (connection_failure_is_raised_on_every_use
              (set_manager
                 (ES.__init__ (Coro (inl (Fault "no route to host")) false)
                    ES.default_index) Tests.env0)
              (Coro (inl (Fault "no route to host")) false)
              (Fault "no route to host") ES.default_index
              {| name := ""; wall_ms := 0 |} (Some "1h") eq_refl eq_refl)
    as ((_ & _ & H1) & _ & (_ & _ & H2)).
  rewrite H1. cbn [env_of result]. rewrite H2. split; reflexivity.
Defined.

(** ** Reading the metrics *)

Lemma py_get_dict (v : Json) (k : string) :
  is_dict v = true -> py_get v k = inr (field k v).
Proof. destruct v; simpl; try discriminate. reflexivity. Qed.

Lemma to_metric_readable (iv : string) (b : Json) (e : Env) :
  readable_bucket b = true ->
  ES.to_metric iv b e = mkOut e [] (inr (metric_of iv b)).
Proof.
  unfold readable_bucket. intros H. apply andb_prop in H as (Hb & Ha).
  unfold ES.to_metric, of_result, bind, ret.
  rewrite !(py_get_dict b) by assumption.
  rewrite (py_get_dict _ "value") by assumption. reflexivity.
Qed.

Lemma to_metric_unreadable (iv : string) (b : Json) (e : Env) :
  readable_bucket b = false ->
  ES.to_metric iv b e = mkOut e [] (inl (AttributeError "get")).
Proof.
  unfold readable_bucket, ES.to_metric, of_result, bind, ret.
  destruct b as [| | | | |fs]; try reflexivity. simpl.
  destruct (match assoc "average_response_time_ms" fs with
            | Some x => x
            | None => JNull
            end); simpl; try reflexivity; discriminate.
Qed.

Lemma mapM_readable (iv : string) (bs : list Json) (e : Env) :
  forallb readable_bucket bs = true ->
  mapM (ES.to_metric iv) bs e = mkOut e [] (inr (map (metric_of iv) bs)).
Proof.
  induction bs as [|b bs IH]; simpl; [reflexivity|].
  intros H. apply andb_prop in H as (Hb & Hbs).
  unfold bind, ret. rewrite (to_metric_readable iv b e Hb), (IH Hbs).
  reflexivity.
Qed.

Lemma mapM_unreadable (iv : string) (pre post : list Json) (b : Json)
    (e : Env) :
  forallb readable_bucket pre = true ->
  readable_bucket b = false ->
  mapM (ES.to_metric iv) (pre ++ b :: post) e
  = mkOut e [] (inl (AttributeError "get")).
Proof.
  induction pre as [|b0 pre IH]; simpl; intros Hpre Hb; unfold bind, ret.
  - now rewrite (to_metric_unreadable iv b e Hb).
  - apply andb_prop in Hpre as (Hb0 & Hpre).
    now rewrite (to_metric_readable iv b0 e Hb0), (IH Hpre Hb).
Qed.

(** What [retrieve] makes of an answer to its search, on an initialized
    manager. *)
Lemma retrieve_initialized (e : Env) (cl : AsyncElasticsearch)
    (i : option string) (resp : Json) (bs : list Json) :
  es (manager e) = Some cl ->
  mapping_requested (manager e) <> JNull ->
  respond cl (es_calls e)
    (Search (index (manager e)) (ES.search_body (ES.normalize i)))
  = inr resp ->
  is_dict resp = true ->
  is_dict (field "aggregations" resp) = true ->
  is_dict (field "endpoints" (field "aggregations" resp)) = true ->
  field "buckets" (field "endpoints" (field "aggregations" resp)) = JArr bs ->
  result (ES.retrieve i e)
  = result (mapM (ES.to_metric (ES.normalize i)) bs
              (set_es_calls
                 (es_calls e ++
                  [Search (index (manager e))
                     (ES.search_body (ES.normalize i))]) e)).
Proof.
  intros He Hm Hresp H1 H2 H3 H4.
  rewrite retrieve_unfold.
  assert (Hs : ES.setup e = mkOut e [] (inr tt))
    by (apply (setup_initialized e cl He); now apply is_none_false).
  assert (Hr : result (ES.setup e) = inr tt) by now rewrite Hs.
  rewrite (after_setup_ok _ e Hr), Hs. simpl env_of.
  unfold after_setup. run_es. rewrite He. simpl. rewrite Hresp. simpl.
  rewrite (py_get_dict resp) by assumption. simpl.
  rewrite (py_get_dict _ "endpoints") by assumption. simpl.
  rewrite (py_get_dict _ "buckets") by assumption. simpl.
  rewrite H4. simpl.
  match goal with
  | |- context [mapM ?f bs ?e2] => destruct (mapM f bs e2) as [e3 m3 r3]
  end.
  reflexivity.
Qed.

(** X10. On an initialized manager, when the search answers with a list
    of buckets that are dicts with a dict under
    [average_response_time_ms], [retrieve] returns one metric per bucket,
    in the order of the buckets: endpoint, average and count are the
    bucket's [key], [value] and [doc_count], [None] where the bucket has
    none, and an empty list of buckets gives an empty list. *)
Theorem retrieve_maps_buckets_in_order
    (e : Env) (cl : AsyncElasticsearch) (i : option string)
    (resp : Json) (bs : list Json) :
  es (manager e) = Some cl ->
  mapping_requested (manager e) <> JNull ->
  respond cl (es_calls e)
    (Search (index (manager e)) (ES.search_body (ES.normalize i)))
  = inr resp ->
  is_dict resp = true ->
  is_dict (field "aggregations" resp) = true ->
  is_dict (field "endpoints" (field "aggregations" resp)) = true ->
  field "buckets" (field "endpoints" (field "aggregations" resp)) = JArr bs ->
  forallb readable_bucket bs = true ->
  result (ES.retrieve i e) = inr (map (metric_of (ES.normalize i)) bs).
Proof.
  intros He Hm Hresp H1 H2 H3 H4 Hbs.
  rewrite (retrieve_initialized e cl i resp bs He Hm Hresp H1 H2 H3 H4).
  now rewrite (mapM_readable _ bs _ Hbs).
Qed.

Lemma retrieve_maps_buckets_in_order_witness :
  let e := env_of (ES.setup Tests.env0) in
  result (ES.retrieve (Some "8h") e)
  = inr [{| average_response_time := JNum 21;
            endpoint := JStr "test-endpoint";
            interval := "8h";
            requests_count := JNum 777 |}].
Proof.
  cbv zeta.
  exact (retrieve_maps_buckets_in_order (env_of (ES.setup Tests.env0))
           Tests.mock_client (Some "8h") Tests.search_return_value
           [JObj [("key", JStr "test-endpoint");
                  ("average_response_time_ms", JObj [("value", JNum 21)]);
                  ("doc_count", JNum 777)]]
           eq_refl ltac:(simpl; discriminate) eq_refl eq_refl eq_refl eq_refl
           eq_refl eq_refl).
Defined.

(** X11. One bucket that is not a dict, or has no dict under
    [average_response_time_ms], makes the whole [retrieve] raise
    [AttributeError], whatever the other buckets hold: no partial list
    is returned. *)
Theorem unreadable_bucket_fails_retrieve
    (e : Env) (cl : AsyncElasticsearch) (i : option string)
    (resp : Json) (pre post : list Json) (b : Json) :
  es (manager e) = Some cl ->
  mapping_requested (manager e) <> JNull ->
  respond cl (es_calls e)
    (Search (index (manager e)) (ES.search_body (ES.normalize i)))
  = inr resp ->
  is_dict resp = true ->
  is_dict (field "aggregations" resp) = true ->
  is_dict (field "endpoints" (field "aggregations" resp)) = true ->
  field "buckets" (field "endpoints" (field "aggregations" resp))
  = JArr (pre ++ b :: post) ->
  forallb readable_bucket pre = true ->
  readable_bucket b = false ->
  result (ES.retrieve i e) = inl (AttributeError "get").
Proof.
  intros He Hm Hresp H1 H2 H3 H4 Hpre Hb.
  rewrite (retrieve_initialized e cl i resp _ He Hm Hresp H1 H2 H3 H4).
  now rewrite (mapM_unreadable _ pre post b _ Hpre Hb).
Qed.

Lemma unreadable_bucket_fails_retrieve_witness :
  result (ES.retrieve None (initialized_env two_bucket_client))
  = inl (AttributeError "get").
Proof.
  exact (unreadable_bucket_fails_retrieve
           (initialized_env two_bucket_client) two_bucket_client None
           (buckets_response [full_bucket; bare_bucket])
           [full_bucket] [] bare_bucket
           eq_refl ltac:(simpl; discriminate) eq_refl eq_refl eq_refl
           eq_refl eq_refl eq_refl eq_refl).
Defined.

(** X12. On an initialized manager [retrieve] only reads: whatever the
    backend answers, it sends exactly one call, the search over the
    normalized window, indexes no document, schedules nothing and leaves
    the manager as it was. *)
Theorem retrieve_only_searches
    (e : Env) (cl : AsyncElasticsearch) (i : option string) :
  es (manager e) = Some cl ->
  mapping_requested (manager e) <> JNull ->
  let o := ES.retrieve i e in
  let idx := index (manager e) in
  es_calls (env_of o)
  = es_calls e ++ [Search idx (ES.search_body (ES.normalize i))]
  /\ documents idx (es_calls (env_of o)) = documents idx (es_calls e)
  /\ manager (env_of o) = manager e
  /\ tasks (env_of o) = tasks e.
Proof.
  intros He Hm. cbv zeta. rewrite retrieve_unfold.
  assert (Hs : ES.setup e = mkOut e [] (inr tt))
    by (apply (setup_initialized e cl He); now apply is_none_false).
  assert (Hr : result (ES.setup e) = inr tt) by now rewrite Hs.
  rewrite (after_setup_ok _ e Hr), Hs. simpl env_of.
  destruct (after_setup_calls (ES.normalize i) e cl He) as (Hc & Ht).
  destruct (after_setup_spec (ES.normalize i) e) as (_ & Hmg & _).
  rewrite Hc, Hmg, Ht, documents_app. simpl. rewrite app_nil_r. auto.
Qed.

Lemma retrieve_only_searches_witness :
  let e := env_of (ES.setup Tests.env0) in
  documents ES.default_index (es_calls (env_of (ES.retrieve None e)))
  = [JObj []].
Proof.
  cbv zeta.
  destruct (retrieve_only_searches (env_of (ES.setup Tests.env0))
              Tests.mock_client None eq_refl ltac:(simpl; discriminate))
    as (_ & H & _).
  exact H.
Defined.

(** ** Intervals, from the endpoint to the search *)




(** ** The connection *)

Lemma setup_ignores_client (e : Env) (cl : AsyncElasticsearch)
    (c : Awaitable) :
  es (manager e) = Some cl ->
  result (ES.setup (with_client c e)) = result (ES.setup e)
  /\ es_calls (env_of (ES.setup (with_client c e)))
     = es_calls (env_of (ES.setup e)).
Proof.
  destruct e as [t d [c0 idx [cl'|] mr] calls tk fin]; simpl;
    [|discriminate]. intros [= ->]. unfold with_client. run_es.
  destruct (is_none mr); simpl; [|auto].
  destruct (respond cl calls _) as [x|r1]; simpl; [auto|].
  destruct (respond cl _ _) as [x|r2]; simpl; auto.
Qed.

(** X13. Once the manager holds a connection it keeps it: the write,
    [retrieve] and a run of the event loop leave the connection in
    place, and [setup] no longer awaits the client, as its outcome and
    calls are the same whatever awaiting the client would give. *)
Theorem connection_is_kept
    (e : Env) (cl : AsyncElasticsearch) :
  es (manager e) = Some cl ->
  (forall data, es (manager (env_of (ES._store data e))) = Some cl)
  /\ (forall interval,
        es (manager (env_of (ES.retrieve interval e))) = Some cl)
  /\ es (manager (run_next_task e)) = Some cl
  /\ (forall c,
        result (ES.setup (with_client c e)) = result (ES.setup e)
        /\ es_calls (env_of (ES.setup (with_client c e)))
           = es_calls (env_of (ES.setup e))).
Proof.
  intros He.
  destruct (setup_keeps_connection e cl He) as (Hs & _ & _).
  assert (Hstore : forall e0 data, es (manager e0) = Some cl ->
            es (manager (env_of (ES._store data e0))) = Some cl).
  { intros e0 data He0.
    destruct (setup_keeps_connection e0 cl He0) as (Hs0 & _ & _).
    rewrite store_unfold, after_setup_env.
    destruct (result (ES.setup e0)); [assumption|].
    destruct (store_after_setup data (env_of (ES.setup e0))) as (Hm & _).
    now rewrite Hm. }
  split; [intros data; now apply Hstore|].
  split; [|split; [|intros c; now apply (setup_ignores_client e cl)]].
  - intros interval. rewrite retrieve_unfold, after_setup_env.
    destruct (result (ES.setup e)); [assumption|].
    destruct (after_setup_spec (ES.normalize interval) (env_of (ES.setup e)))
      as (_ & Hm & _).
    now rewrite Hm.
  - unfold run_next_task. destruct (tasks e) as [|[data] rest];
      [assumption|]. unfold run_coro.
    pose proof (Hstore (set_tasks rest e) data He) as H.
    destruct (ES._store data (set_tasks rest e)) as [e1 m1 r].
    exact H.
Qed.

Lemma connection_is_kept_witness :
  es (manager (env_of (ES.retrieve None (initialized_env two_bucket_client))))
  = Some two_bucket_client.
Proof.
  exact (proj1 (proj2 (connection_is_kept
                         (initialized_env two_bucket_client)
                         two_bucket_client eq_refl)) None).
Defined.

(** ** From the request to the index *)

Lemma run_store_task (data : BenchmarkRecord) (e : Env) :
  tasks e = [Store_coro data] ->
  result (ES.setup (set_tasks [] e)) = inr tt ->
  es_calls (run_next_task e)
  = es_calls e ++ init_calls (manager e)
    ++ [Index (index (manager e)) (ES.metric_doc data (datetime_now e)) None].
Proof.
  intros Ht Hs. unfold run_next_task. rewrite Ht. unfold run_coro.
  rewrite store_unfold, (after_setup_ok _ _ Hs).
  destruct (setup_success _ Hs) as (Hc & Hi & (cl & He) & Hd & _).
  cbv zeta in Hc, Hi, He, Hd. simpl in Hc, Hi, Hd.
  destruct (after_setup_store_run data _ cl He) as (Hc' & _).
  cbv zeta in Hc'. rewrite Hc, Hi, Hd, <- app_assoc in Hc'.
  destruct (after_setup_store data (env_of (ES.setup (set_tasks [] e))))
    as [e1 m1 r].
  exact Hc'.
Qed.

(** X14. A measured request of an application with the Elasticsearch
    manager ends up in the index: once the loop runs the write the
    request scheduled and initialization goes through, the backend has
    received, after the initialization calls, one document whose
    [endpoint] is the route identifier, not the path requested, and
    whose [wall_ms] is the duration the timer took. *)
Theorem measured_request_is_persisted
    (a : FastAPI) (measure_routes : list string) (request : Request)
    (call_next : Request -> Ext Response) (e : Env) (route later : string) :
  let self := metrics_handler a ES_manager measure_routes in
  Handler.get_route_name self request = inr route ->
  Handler.is_route_measurable self route = true ->
  let down := fst (call_next request e) in
  tasks down = [] ->
  let o := timing_middleware a ES_manager measure_routes request call_next e in
  let e1 := set_datetime later (env_of o) in
  result (ES.setup (set_tasks [] e1)) = inr tt ->
  es_calls (run_next_task e1)
  = es_calls down ++ init_calls (manager down)
    ++ [Index (index (manager down))
          (JObj [("endpoint", JStr route);
                 ("wall_ms", JNum (1000 * (time_now down - time_now e)));
                 ("timestamp", JStr later)]) None].
Proof.
  cbv zeta. intros Hr Hm Ht. unfold timing_middleware.
  rewrite (call_measured _ request call_next e route Hr Hm).
  cbv zeta. simpl env_of. intros Hs.
  set (record := record_of request call_next e route) in *.
  set (down := fst (call_next request e)) in *.
  assert (Hq : tasks (set_datetime later
                        (set_tasks (tasks down ++ [Store_coro record]) down))
               = [Store_coro record]) by (simpl; now rewrite Ht).
  rewrite (run_store_task record _ Hq Hs). reflexivity.
Qed.

Lemma measured_request_is_persisted_witness :
  let rq := Tests.get ["measured-dynamic"; "some-value"] in
  let o := timing_middleware Tests.app ES_manager Tests.measure_routes rq
             Tests.ok_handler (initialized_env Tests.mock_client) in
  es_calls (run_next_task (set_datetime "2021-03-01T10:00:09" (env_of o)))
  = [Index "quepid_es_proxy.metrics"
       (JObj [("endpoint", JStr "units.test_metrics.dymic_route");
              ("wall_ms", JNum (1000 * (100 + (1 # 4) - 100)));
              ("timestamp", JStr "2021-03-01T10:00:09")]) None].
Proof.
  cbv zeta.
  exact (measured_request_is_persisted Tests.app Tests.measure_routes
           (Tests.get ["measured-dynamic"; "some-value"]) Tests.ok_handler
           (initialized_env Tests.mock_client)
           "units.test_metrics.dymic_route" "2021-03-01T10:00:09"
           eq_refl eq_refl eq_refl eq_refl).
Defined.

(** ** Identifiers *)

Lemma has_dot_app (a b : string) :
  has_dot (a ++ String "."%char b)%string = true.
Proof.
  induction a as [|c a IH]; simpl; [reflexivity|].
  rewrite IH. apply orb_true_r.
Qed.

Lemma identifier_inj (m1 n1 m2 n2 : string) :
  has_dot n1 = false -> has_dot n2 = false ->
  identifier m1 n1 = identifier m2 n2 -> m1 = m2 /\ n1 = n2.
Proof.
  unfold identifier. simpl. intros H1 H2. revert m2.
  induction m1 as [|c m1 IH]; intros [|c' m2]; simpl; intros [= H].
  - auto.
  - subst. rewrite has_dot_app in H1. discriminate.
  - subst. rewrite has_dot_app in H2. discriminate.
  - subst. destruct (IH m2 ltac:(assumption)) as (-> & ->). auto.
Qed.

(** X15. The identifier tells routes apart: when two requests resolve to
    routes whose names hold no dot, as function names do, and get the
    same identifier, the endpoints of the two routes are of the same
    module and the routes have the same name. *)
Theorem same_identifier_same_endpoint
    (self : RequestMetricsHandler) (rq1 rq2 : Request)
    (r1 r2 : BaseRoute) (ep1 ep2 : Endpoint) (n1 n2 : string) :
  Handler.get_matching_route self rq1 = Some r1 ->
  route_endpoint r1 = Some ep1 -> route_name r1 = Some n1 ->
  Handler.get_matching_route self rq2 = Some r2 ->
  route_endpoint r2 = Some ep2 -> route_name r2 = Some n2 ->
  has_dot n1 = false -> has_dot n2 = false ->
  Handler.get_route_name self rq1 = Handler.get_route_name self rq2 ->
  __module__ ep1 = __module__ ep2 /\ n1 = n2.
Proof.
  intros M1 E1 N1 M2 E2 N2 D1 D2.
  pose proof (get_route_name_cases self rq1) as C1.
  pose proof (get_route_name_cases self rq2) as C2.
  rewrite M1, E1, N1 in C1. rewrite M2, E2, N2 in C2.
  rewrite C1, C2. intros [= H].
  now apply identifier_inj.
Qed.

Lemma same_identifier_same_endpoint_witness :
  "units.test_metrics" = "units.test_metrics"
  /\ "dymic_route" = "dymic_route".
Proof.
  exact (same_identifier_same_endpoint Tests.handler
           (Tests.get ["measured-dynamic"; "a"])
           (Tests.get ["measured-dynamic"; "b"])
           (Route [Lit "measured-dynamic"; Param "dynamic"] ["GET"]
              "units.test_metrics" "dymic_route")
           (Route [Lit "measured-dynamic"; Param "dynamic"] ["GET"]
              "units.test_metrics" "dymic_route")
           {| __module__ := "units.test_metrics" |}
           {| __module__ := "units.test_metrics" |}
           "dymic_route" "dymic_route"
           eq_refl eq_refl eq_refl eq_refl eq_refl eq_refl eq_refl eq_refl
           eq_refl).
Defined.

(** ** The timer on its own *)

(** X16. [with Benchmark(name, done): body], for any body and any timer
    object, fresh or used before: the callback is invoked exactly once,
    after the records the body itself gave rise to, with the timer's name
    and 1000 times the clock difference between entering and leaving,
    whatever [start_time] the object had; and when the callback returns,
    the body's value or exception comes out unchanged. *)
Theorem benchmark_reports_once_after_body
    {A : Type} (b : Benchmark) (body : M A) (e : Env) :
  let o := with_ (Timer b) body e in
  let inner := body e in
  let record :=
    {| name := b_name b;
       wall_ms := 1000 * (time_now (env_of inner) - time_now e) |} in
  measured o = measured inner ++ [record]
  /\ (snd (done b record (env_of inner)) = inr tt ->
      result o = match result inner with
                 | inl x => inl x
                 | inr v => inr (Some v)
                 end).
Proof.
  cbv zeta. run_handler.
  destruct (body e) as [e1 m1 [x|v]]; simpl;
    match goal with
    | |- context [done b ?r e1] => destruct (done b r e1) as [e2 [y|[]]]
    end; simpl; rewrite ?app_nil_r; split; try reflexivity;
    discriminate.
Qed.

(** ** The application of main.py *)

(* Comparisons with a name that is not known stay folded. *)
#[local] Arguments String.eqb !s1 !s2.
#[local] Arguments valid_value : simpl never.

Lemma is_full_partial (b : bool) :
  is_full (if b then PARTIAL else NONE) = false.
Proof. now destruct b. Qed.

Lemma not_reserved (n idx : string) :
  ~ In idx reserved_names -> In n reserved_names -> String.eqb n idx = false.
Proof.
  intros Hno Hin. apply String.eqb_neq. intros <-. contradiction.
Qed.

(** X17. The route table of main.py.  A POST to [/{index_name}] resolves
    to [search_proxy] for every index name, also one that is the path of
    a route registered before.  A POST to
    [/{index_name}/_doc/{doc_id}/_explain] resolves to [explain], except
    when the index is named [metrics] and the document id holds no
    newline: the metrics mount then takes the request, which gets the
    empty identifier and is not measured.  A GET to [/{index_name}]
    resolves to [explain_missing_documents] unless the name is the path
    of an earlier GET route, with or without a newline after it, which
    then takes the request. *)
Theorem main_proxy_requests_resolve (idx doc : string) :
  valid_value idx = true ->
  valid_value doc = true ->
  Handler.get_route_name Main.handler {| method := "POST"; path := [idx] |}
  = inr "quepid_es_proxy.main.search_proxy"
  /\ (idx <> "metrics" \/ has_newline doc = true ->
      Handler.get_route_name Main.handler
        {| method := "POST"; path := [idx; "_doc"; doc; "_explain"] |}
      = inr "quepid_es_proxy.main.explain")
  /\ (has_newline doc = false ->
      Handler.get_route_name Main.handler
        {| method := "POST"; path := ["metrics"; "_doc"; doc; "_explain"] |}
      = inr "")
  /\ (~ In idx reserved_names ->
      Handler.get_route_name Main.handler {| method := "GET"; path := [idx] |}
      = inr "quepid_es_proxy.main.explain_missing_documents")
  /\ (In idx reserved_names ->
      Handler.get_route_name Main.handler {| method := "GET"; path := [idx] |}
      <> inr "quepid_es_proxy.main.explain_missing_documents")
  /\ Handler.is_route_measurable Main.handler
       "quepid_es_proxy.main.search_proxy" = true
  /\ Handler.is_route_measurable Main.handler
       "quepid_es_proxy.main.explain" = true
  /\ Handler.is_route_measurable Main.handler "" = false.
Proof.
  intros Hi Hd. split; [|split; [|split; [|split; [|split]]]].
  - unfold Handler.get_route_name, Handler.get_matching_route. simpl.
    rewrite !is_full_partial, !andb_false_r, Hi. reflexivity.
  - intros Hor.
    unfold Handler.get_route_name, Handler.get_matching_route. simpl.
    rewrite !andb_false_r, Hi, Hd. simpl.
    destruct Hor as [Hne|Hnl].
    + assert (H0 : String.eqb "metrics" idx = false)
        by (apply String.eqb_neq; congruence).
      rewrite H0. reflexivity.
    + rewrite Hnl. simpl. rewrite !andb_false_r. reflexivity.
  - intros Hnl.
    unfold Handler.get_route_name, Handler.get_matching_route. simpl.
    rewrite Hnl. reflexivity.
  - intros Hno.
    unfold Handler.get_route_name, Handler.get_matching_route. simpl.
    rewrite !andb_false_r, ?is_full_partial.
    repeat match goal with
           | |- context [String.eqb ?n idx] =>
               rewrite (not_reserved n idx Hno ltac:(simpl; tauto))
           end.
    simpl. rewrite Hi. reflexivity.
  - unfold reserved_names. simpl.
    intros [<-|[<-|[<-|[<-|[<-|[<-|[<-|[<-|[]]]]]]]]]; discriminate.
  - repeat split.
Qed.

Lemma main_proxy_requests_resolve_witness :
  Handler.get_route_name Main.handler
    {| method := "POST"; path := ["healthcheck"] |}
  = inr "quepid_es_proxy.main.search_proxy".
Proof.
  exact (proj1 (main_proxy_requests_resolve "healthcheck" "1"
                  eq_refl eq_refl)).
Defined.
